(** * MSP parser and command dispatcher (msp_parser.cpp)

    A shallow embedding of the byte-wise MSP frame parser
    ([MspMessageParser]), the command executors, the dispatcher
    ([MspCommandDispatcher]) and the top-level handler ([MspMessageHandler])
    of [msp_parser.cpp], followed by the properties of the specification
    that concern them.

    Conventions.
    - [uint8_t], [uint16_t], [int16_t] and [size_t] values are integers in
      [Z]; the conversions the C++ performs implicitly are written out
      ([to_uint8], [to_uint16], [to_int16]).
    - C arrays are lists of the array's length. A store through an index
      that is outside the array is undefined behaviour in C++: the
      embedding makes it a fault ([None]).
    - [std::cout] and the UDP socket are append-only logs of structured
      lines; [time(nullptr)] is read from a clock field.
    - An object reached through a C++ reference is one cell of the
      environment [Env]; an object held by value is a field of its owner. *)

From Stdlib Require Import ZArith List Lia Bool.
From stdpp Require Import base tactics option list countable gmap.
Import ListNotations.

Local Open Scope Z_scope.

(** ** Machine integers *)

Definition to_uint8 (z : Z) : Z := z mod 256.
Definition to_uint16 (z : Z) : Z := z mod 65536.
Definition to_int16 (z : Z) : Z :=
  let u := z mod 65536 in if u <? 32768 then u else u - 65536.

Definition is_byte (z : Z) : Prop := 0 <= z < 256.

(** ** Constants and enums *)

Definition MSP_MAX_PAYLOAD_SIZE : Z := 256.
Definition FRAME_BUFFER_SIZE : Z := 1024.
Definition CHANNEL_COUNT : Z := 18.

Inductive MspCommand : Type :=
| STATUS
| ATTITUDE
| RC
| FC_VARIANT
| UNKNOWN.

(** The enumerators' values ([enum class MspCommand : uint8_t]). *)
Definition MspCommand_value (c : MspCommand) : Z :=
  match c with
  | STATUS => 101
  | ATTITUDE => 108
  | RC => 105
  | FC_VARIANT => 102
  | UNKNOWN => 255
  end.

#[global] Instance MspCommand_eq_dec : EqDecision MspCommand.
Proof. solve_decision. Defined.

#[global] Instance MspCommand_countable : Countable MspCommand.
Proof.
  refine (inj_countable' MspCommand_value
            (fun z => if z =? 101 then STATUS
                      else if z =? 108 then ATTITUDE
                      else if z =? 105 then RC
                      else if z =? 102 then FC_VARIANT
                      else UNKNOWN) _).
  intros []; reflexivity.
Defined.

(** ** MSP message representation *)

Inductive Direction : Type :=
| OUTBOUND
| INBOUND.

Definition Direction_value (d : Direction) : Z :=
  match d with OUTBOUND => 0 | INBOUND => 1 end.

Record MspMessage : Type := mkMspMessage {
  direction : Direction;
  cmd : MspCommand;
  size : Z;
  checksum : Z;
  payload : list Z
}.

Definition set_direction (d : Direction) (m : MspMessage) : MspMessage :=
  mkMspMessage d (cmd m) (size m) (checksum m) (payload m).
Definition set_cmd (c : MspCommand) (m : MspMessage) : MspMessage :=
  mkMspMessage (direction m) c (size m) (checksum m) (payload m).
Definition set_size (s : Z) (m : MspMessage) : MspMessage :=
  mkMspMessage (direction m) (cmd m) s (checksum m) (payload m).
Definition set_checksum (c : Z) (m : MspMessage) : MspMessage :=
  mkMspMessage (direction m) (cmd m) (size m) c (payload m).
Definition set_payload (pl : list Z) (m : MspMessage) : MspMessage :=
  mkMspMessage (direction m) (cmd m) (size m) (checksum m) pl.

(** [msg.payload[i]] for reading. *)
Definition payload_at (m : MspMessage) (i : Z) : Z :=
  default 0 (payload m !! Z.to_nat i).

(** [m_msg.payload[i] = v]: defined only inside the array. *)
Definition payload_store (pl : list Z) (i v : Z) : option (list Z) :=
  if (0 <=? i) && (i <? MSP_MAX_PAYLOAD_SIZE)
  then Some (<[Z.to_nat i := v]> pl)
  else None.

(** The object representation of a message, as [copyToFrameBuffer(&msg,
    sizeof(msg))] reads it: four one-byte fields, then the payload array. *)
Definition MspMessage_bytes (m : MspMessage) : list Z :=
  [Direction_value (direction m); MspCommand_value (cmd m); size m; checksum m]
  ++ payload m.

(** ** Handler interface *)

(** [IMspMessageHandler]: [W] is the state the handler acts on. *)
Class IMspMessageHandler (W : Type) : Type :=
  onMspMessage : MspMessage -> W -> W.

(** A handler that only records what it is given, in order of arrival. *)
Definition Recorder : Type := list MspMessage.

#[global] Instance Recorder_handler : IMspMessageHandler Recorder :=
  fun msg seen => seen ++ [msg].

(** ** MSP message parser *)

Inductive ParserState : Type :=
| IDLE
| VERSION
| DIRECTION
| SIZE
| CMD
| PAYLOAD
| CHECKSUM.

#[global] Instance ParserState_eq_dec : EqDecision ParserState.
Proof. solve_decision. Defined.

Record MspMessageParser : Type := mkParser {
  m_state : ParserState;
  m_msg : MspMessage;
  m_bufPtr : Z
}.

Definition set_state (s : ParserState) (p : MspMessageParser) : MspMessageParser :=
  mkParser s (m_msg p) (m_bufPtr p).

(** [memset(&m_msg, 0, sizeof(m_msg))] followed by [cmd = UNKNOWN]. *)
Definition zero_msg : MspMessage :=
  mkMspMessage OUTBOUND UNKNOWN 0 0 (replicate (Z.to_nat MSP_MAX_PAYLOAD_SIZE) 0).

(** [MspMessageParser::reset]: every field is overwritten. *)
Definition reset : MspMessageParser := mkParser IDLE zero_msg 0.

(** The constructor initialises the members and calls [reset()]. *)
Definition MspMessageParser_new : MspMessageParser := reset.

Definition toMspCommand (c : Z) : MspCommand :=
  if c =? 101 then STATUS
  else if c =? 108 then ATTITUDE
  else if c =? 105 then RC
  else if c =? 102 then FC_VARIANT
  else UNKNOWN.

Section Parser.
Context {W : Type} `{!IMspMessageHandler W}.

(** [MspMessageParser::processByte]. The handler is the object behind
    [m_handler]; [w] is its state before the call. *)
Definition processByte (p : MspMessageParser) (b : Z) (w : W)
  : option (MspMessageParser * W) :=
  let byte := to_uint8 b in
  match m_state p with
  | IDLE =>
      if byte =? 36 (* '$' *) then Some (set_state VERSION p, w)
      else Some (p, w)
  | VERSION =>
      if byte =? 77 (* 'M' *) then Some (set_state DIRECTION p, w)
      else Some (reset, w)
  | DIRECTION =>
      if byte =? 60 (* '<' *)
      then Some (mkParser SIZE (set_direction OUTBOUND (m_msg p)) (m_bufPtr p), w)
      else if byte =? 62 (* '>' *)
      then Some (mkParser SIZE (set_direction INBOUND (m_msg p)) (m_bufPtr p), w)
      else Some (reset, w)
  | SIZE =>
      let msg := set_cmd UNKNOWN (set_checksum byte (set_size byte (m_msg p))) in
      if size msg >? MSP_MAX_PAYLOAD_SIZE then Some (reset, w)
      else Some (mkParser CMD msg 0, w)
  | CMD =>
      let msg := set_cmd (toMspCommand byte)
                   (set_checksum (Z.lxor (checksum (m_msg p)) byte) (m_msg p)) in
      Some (mkParser (if size msg =? 0 then CHECKSUM else PAYLOAD) msg 0, w)
  | PAYLOAD =>
      pl ← payload_store (payload (m_msg p)) (m_bufPtr p) byte;
      let bufPtr := to_uint16 (m_bufPtr p + 1) in
      let msg := set_checksum (Z.lxor (checksum (m_msg p)) byte)
                   (set_payload pl (m_msg p)) in
      Some (mkParser (if bufPtr =? size msg then CHECKSUM else PAYLOAD) msg bufPtr, w)
  | CHECKSUM =>
      let w' := if checksum (m_msg p) =? byte
                then onMspMessage (m_msg p) w
                else w in
      Some (reset, w')
  end.

(** The read loop of [main]: the bytes of the stream, one at a time. *)
Fixpoint feed (p : MspMessageParser) (bs : list Z) (w : W)
  : option (MspMessageParser * W) :=
  match bs with
  | [] => Some (p, w)
  | b :: rest =>
      match processByte p b w with
      | Some (p', w') => feed p' rest w'
      | None => None
      end
  end.
End Parser.

(** ** Wire format

    [$ M (< or >) LEN CMD payload CHECKSUM], the checksum being the
    exclusive-or of LEN, CMD and the payload bytes. *)

Definition xor_bytes (seed : Z) (l : list Z) : Z := fold_left Z.lxor l seed.

Definition Direction_marker (d : Direction) : Z :=
  match d with OUTBOUND => 60 | INBOUND => 62 end.

Definition frame_header (marker len c : Z) : list Z := [36; 77; marker; len; c].

Definition wire_frame (d : Direction) (c : Z) (pl : list Z) : list Z :=
  let len := Z.of_nat (length pl) in
  frame_header (Direction_marker d) len c ++ pl ++ [xor_bytes (Z.lxor len c) pl].

(** ** Data model (shared state) *)

Record FlightDataModel : Type := mkModel {
  armed : bool;
  pitch : Z;
  roll : Z;
  heading : Z;
  channels : list Z;
  fcIdentifier : list Z;
  frameBuffer : list Z;
  fbCursor : Z;
  verbose : bool
}.

(** The default member initialisers. *)
Definition FlightDataModel_new : FlightDataModel :=
  {| armed := false; pitch := 0; roll := 0; heading := 0;
     channels := replicate (Z.to_nat CHANNEL_COUNT) 0;
     fcIdentifier := replicate 5 0;
     frameBuffer := replicate (Z.to_nat FRAME_BUFFER_SIZE) 0;
     fbCursor := 0;
     verbose := true |}.

Definition set_armed (a : bool) (d : FlightDataModel) : FlightDataModel :=
  mkModel a (pitch d) (roll d) (heading d) (channels d) (fcIdentifier d)
    (frameBuffer d) (fbCursor d) (verbose d).
Definition set_attitude (r p h : Z) (d : FlightDataModel) : FlightDataModel :=
  mkModel (armed d) p r h (channels d) (fcIdentifier d)
    (frameBuffer d) (fbCursor d) (verbose d).
Definition set_channels (c : list Z) (d : FlightDataModel) : FlightDataModel :=
  mkModel (armed d) (pitch d) (roll d) (heading d) c (fcIdentifier d)
    (frameBuffer d) (fbCursor d) (verbose d).
Definition set_fcIdentifier (s : list Z) (d : FlightDataModel) : FlightDataModel :=
  mkModel (armed d) (pitch d) (roll d) (heading d) (channels d) s
    (frameBuffer d) (fbCursor d) (verbose d).
Definition set_frameBuffer (fb : list Z) (d : FlightDataModel) : FlightDataModel :=
  mkModel (armed d) (pitch d) (roll d) (heading d) (channels d) (fcIdentifier d)
    fb (fbCursor d) (verbose d).
Definition set_fbCursor (c : Z) (d : FlightDataModel) : FlightDataModel :=
  mkModel (armed d) (pitch d) (roll d) (heading d) (channels d) (fcIdentifier d)
    (frameBuffer d) c (verbose d).
Definition set_verbose (v : bool) (d : FlightDataModel) : FlightDataModel :=
  mkModel (armed d) (pitch d) (roll d) (heading d) (channels d) (fcIdentifier d)
    (frameBuffer d) (fbCursor d) v.

(** ** Output *)

(** One constructor per [cout] statement of the program, carrying the
    values it prints. *)
Inductive LogLine : Type :=
| FlushingFrameBuffer (n : Z)            (* FlightDataModel::flushFrameBuffer *)
| ReceivedMspMsg (c sz : Z)              (* MspMessageHandler::onMspMessage *)
| UnhandledCommand (c : Z)               (* MspCommandDispatcher::dispatchMessage *)
| StatusArmed (a : bool)                 (* StatusCommandExecutor *)
| AttitudeLine (p r h : Z)               (* AttitudeCommandExecutor *)
| FlightController (id : list Z)         (* FcVariantCommandExecutor *)
| ChannelsLine (chs : list Z).           (* RcCommandConsoleExecutor *)

(** A datagram handed to [sendto]: the destination port and the fields of
    the formatted line. *)
Record Datagram : Type := mkDatagram {
  dest_port : Z;
  fields : list Z
}.

(** What the code run for one message can reach: the [FlightDataModel]
    object of [main] (the dispatcher holds a reference to it), standard
    output, the datagrams sent so far and the clock. *)
Record Env : Type := mkEnv {
  flightModel : FlightDataModel;
  console : list LogLine;
  datagrams : list Datagram;
  clock : Z
}.

Definition set_flightModel (d : FlightDataModel) (e : Env) : Env :=
  mkEnv d (console e) (datagrams e) (clock e).
Definition set_console (c : list LogLine) (e : Env) : Env :=
  mkEnv (flightModel e) c (datagrams e) (clock e).
Definition print (l : LogLine) (e : Env) : Env :=
  set_console (console e ++ [l]) e.
Definition sendto (d : Datagram) (e : Env) : Env :=
  mkEnv (flightModel e) (console e) (datagrams e ++ [d]) (clock e).

(** [FlightDataModel::flushFrameBuffer], on the object [d]; [out] is
    standard output. *)
Definition flushFrameBuffer (d : FlightDataModel) (out : list LogLine)
  : FlightDataModel * list LogLine :=
  let out' := if verbose d then out ++ [FlushingFrameBuffer (fbCursor d)] else out in
  (set_fbCursor 0 d, out').

(** [memcpy(dst + off, data, length data)] on an array held as a list. *)
Definition memcpy_at (dst : list Z) (off : Z) (data : list Z) : list Z :=
  take (Z.to_nat off) dst ++ data ++ drop (Z.to_nat off + length data) dst.

(** [FlightDataModel::copyToFrameBuffer(data, size)], with [data] the
    [size] bytes read. *)
Definition copyToFrameBuffer (data : list Z) (d : FlightDataModel) (out : list LogLine)
  : FlightDataModel * list LogLine :=
  let sz := Z.of_nat (length data) in
  let '(d1, out1) := if fbCursor d + sz >? FRAME_BUFFER_SIZE
                     then flushFrameBuffer d out
                     else (d, out) in
  (set_fbCursor (fbCursor d1 + sz)
     (set_frameBuffer (memcpy_at (frameBuffer d1) (fbCursor d1) data) d1),
   out1).

(** ** Command executors *)

(** [IMspCommandExecutor]: [execute(msg, dataModel)], the data model being
    the one of the environment. *)
Record IMspCommandExecutor : Type := mkExecutor {
  execute : MspMessage -> Env -> Env
}.

(** A 16-bit value read from the payload at byte offset [i] (the targets
    are little-endian). *)
Definition uint16_at (m : MspMessage) (i : Z) : Z :=
  payload_at m i + 256 * payload_at m (i + 1).

(** MSP 101, STATUS. *)
Definition StatusCommandExecutor : IMspCommandExecutor :=
  mkExecutor (fun msg e =>
    let e1 := if size msg >? 6
              then set_flightModel
                     (set_armed (negb (Z.land (payload_at msg 6) 1 =? 0)) (flightModel e)) e
              else e in
    if verbose (flightModel e1)
    then print (StatusArmed (armed (flightModel e1))) e1
    else e1).

(** MSP 108, ATTITUDE. *)
Definition AttitudeCommandExecutor : IMspCommandExecutor :=
  mkExecutor (fun msg e =>
    if size msg >=? 6 then
      let d := set_attitude (to_int16 (uint16_at msg 0))
                            (to_int16 (uint16_at msg 2))
                            (to_int16 (uint16_at msg 4)) (flightModel e) in
      let e1 := set_flightModel d e in
      if verbose d then print (AttitudeLine (pitch d) (roll d) (heading d)) e1 else e1
    else e).

(** [strncmp(s1, s2, n) != 0]. *)
Fixpoint strncmp_differs (n : nat) (s1 s2 : list Z) : bool :=
  match n with
  | O => false
  | S n' =>
      let c1 := hd 0 s1 in
      let c2 := hd 0 s2 in
      if c1 =? c2
      then if c1 =? 0 then false else strncmp_differs n' (tl s1) (tl s2)
      else true
  end.

(** MSP 102, FC_VARIANT. *)
Definition FcVariantCommandExecutor : IMspCommandExecutor :=
  mkExecutor (fun msg e =>
    if size msg >=? 4 then
      if strncmp_differs 4 (fcIdentifier (flightModel e)) (payload msg) then
        let d := set_fcIdentifier (take 4 (payload msg) ++ [0]) (flightModel e) in
        let e1 := set_flightModel d e in
        if verbose d then print (FlightController (fcIdentifier d)) e1 else e1
      else e
    else e).

(** MSP 105, RC: the first executor of the chain. *)
Definition RcCommandConsoleExecutor : IMspCommandExecutor :=
  mkExecutor (fun msg e =>
    if size msg >=? 16 * 2 then
      let first16 := map (fun i => uint16_at msg (2 * Z.of_nat i)) (seq 0 16) in
      let d := set_channels (first16 ++ drop 16 (channels (flightModel e))) (flightModel e) in
      let e1 := set_flightModel d e in
      if verbose d then print (ChannelsLine (channels d)) e1 else e1
    else e).

Definition channel (d : FlightDataModel) (i : nat) : Z := default 0 (channels d !! i).

(** MSP 105, RC: the second executor of the chain, built for [outPort]
    (the socket is taken to open). The constructor stores
    [htons(outPort)]: [htons] takes a [uint16_t], so the port the
    datagrams go to is [outPort] cut to 16 bits. *)
Definition RcCommandAlinkForwarder (outPort : Z) : IMspCommandExecutor :=
  let sin_port := to_uint16 outPort in
  mkExecutor (fun msg e =>
    if size msg >=? 16 * 2 then
      let link_quality := channel (flightModel e) 8 in
      let lost_packets := Z.land (channel (flightModel e) 10) 31 in
      let recovered_packets := Z.land (Z.shiftr (channel (flightModel e) 11) 5) 31 in
      sendto (mkDatagram sin_port
                [clock e; link_quality; link_quality; recovered_packets; lost_packets;
                 20; 20; 20; 20]) e
    else e).

(** ** MSP command dispatcher *)

(** [m_executors]; the [m_dataModel] reference is [flightModel] of the
    environment. *)
Record MspCommandDispatcher : Type := mkDispatcher {
  m_executors : gmap MspCommand (list IMspCommandExecutor)
}.

(** [m_executors[cmd].push_back(executor)]. *)
Definition registerExecutor (c : MspCommand) (x : IMspCommandExecutor)
    (d : MspCommandDispatcher) : MspCommandDispatcher :=
  mkDispatcher (<[c := default [] (m_executors d !! c) ++ [x]]> (m_executors d)).

(** [for (auto& exec : it->second) exec->execute(msg, m_dataModel)]. *)
Definition run_executors (xs : list IMspCommandExecutor) (msg : MspMessage) (e : Env) : Env :=
  fold_left (fun e' x => execute x msg e') xs e.

Definition dispatchMessage (d : MspCommandDispatcher) (msg : MspMessage) (e : Env) : Env :=
  match m_executors d !! cmd msg with
  | Some xs => run_executors xs msg e
  | None =>
      if verbose (flightModel e)
      then print (UnhandledCommand (MspCommand_value (cmd msg))) e
      else e
  end.

(** The constructor registers the base executors. *)
Definition MspCommandDispatcher_new : MspCommandDispatcher :=
  registerExecutor FC_VARIANT FcVariantCommandExecutor
    (registerExecutor ATTITUDE AttitudeCommandExecutor
       (registerExecutor STATUS StatusCommandExecutor (mkDispatcher ∅))).

(** ** MSP message handler *)

(** [m_dataModel] is a member held by value; [m_dispatcher] refers to the
    model of the environment. *)
Record MspMessageHandler : Type := mkHandler {
  m_dataModel : FlightDataModel;
  m_dispatcher : MspCommandDispatcher
}.

(** [MspMessageHandler(model)]: [m_dataModel(model)] copies the argument. *)
Definition MspMessageHandler_new (model : FlightDataModel) : MspMessageHandler :=
  mkHandler model MspCommandDispatcher_new.

(** [getDispatcher().registerExecutor(c, x)]. *)
Definition handler_register (c : MspCommand) (x : IMspCommandExecutor)
    (h : MspMessageHandler) : MspMessageHandler :=
  mkHandler (m_dataModel h) (registerExecutor c x (m_dispatcher h)).

Definition MspMessageHandler_onMspMessage (msg : MspMessage)
    (w : MspMessageHandler * Env) : MspMessageHandler * Env :=
  let '(h, e) := w in
  let e1 := if verbose (m_dataModel h)
            then print (ReceivedMspMsg (MspCommand_value (cmd msg)) (size msg)) e
            else e in
  let '(copy, out) := copyToFrameBuffer (MspMessage_bytes msg) (m_dataModel h) (console e1) in
  (mkHandler copy (m_dispatcher h),
   dispatchMessage (m_dispatcher h) msg (set_console out e1)).

#[global] Instance MspMessageHandler_handler
  : IMspMessageHandler (MspMessageHandler * Env) := MspMessageHandler_onMspMessage.

(** ** Wiring of [main] *)

(** The optional outbound port of [main]: [argv3] is the integer read
    from the fourth argument when there is one. Without it [outPort] is 0;
    a value that is not in 1..65535 makes [main] return 1 ([None]). *)
Definition main_outPort (argv3 : option Z) : option Z :=
  match argv3 with
  | None => Some 0
  | Some v => if (v <=? 0) || (v >? 65535) then None else Some v
  end.

(** Steps 2 to 4 of [main]: the model, the handler and the RC executors;
    [outPort] is 0 when no outbound port was given. *)
Definition main_wiring (outPort now : Z) : MspMessageHandler * Env :=
  let flightModel := set_verbose true FlightDataModel_new in
  let h := MspMessageHandler_new flightModel in
  let h1 := handler_register RC RcCommandConsoleExecutor h in
  let h2 := if outPort >? 0
            then handler_register RC (RcCommandAlinkForwarder outPort) h1
            else h1 in
  (h2, mkEnv flightModel [] [] now).

(** Steps 5 and 6 of [main] over the bytes [bs] of the input. *)
Definition main_run (outPort now : Z) (bs : list Z)
  : option (MspMessageParser * (MspMessageHandler * Env)) :=
  feed MspMessageParser_new bs (main_wiring outPort now).

(** ** Input sources and the read loop *)

(** [IInputSource]: [receiveData(buffer, bufferSize)] on a source in state
    [src] gives the value returned, the cells of [buffer] it wrote, and the
    state of the source afterwards. *)
Class IInputSource (Src : Type) : Type :=
  receiveData : Src -> Z -> Z * list Z * Src.

(** [FileInputSource]: the bytes of the file not read yet, and whether the
    stream is [good()]. *)
Record FileInputSource : Type := mkFile {
  unread : list Z;
  good : bool
}.

(** The constructor on a file that opens, [content] being its bytes. *)
Definition FileInputSource_new (content : list Z) : FileInputSource :=
  mkFile content true.

(** [FileInputSource::receiveData]. [read] takes [bufferSize] bytes or all
    that is left, and a short read leaves the stream failed; [gcount()] is
    the number of bytes taken. *)
#[global] Instance FileInputSource_receiveData : IInputSource FileInputSource :=
  fun f bufferSize =>
    if negb (good f) then (-1, [], f)
    else
      let got := take (Z.to_nat bufferSize) (unread f) in
      (Z.of_nat (length got), got,
       mkFile (drop (Z.to_nat bufferSize) (unread f))
              (Z.of_nat (length got) =? bufferSize)).

(** [BUFFER_SIZE] of [main]. *)
Definition BUFFER_SIZE : Z := 1024.

(** Where the read loop of [main] stands: left through [break], still
    running when the iterations counted ran out, or stopped by a fault of
    the parser. *)
Inductive LoopResult (Src W : Type) : Type :=
| Exited (p : MspMessageParser) (w : W)
| Running (src : Src) (p : MspMessageParser) (w : W)
| Faulted.
Arguments Exited {Src W} p w.
Arguments Running {Src W} src p w.
Arguments Faulted {Src W}.

(** Step 6 of [main]: [while (true)], for at most [fuel] iterations;
    [is_file] is [inputType == "file"]. *)
Fixpoint read_loop {Src W : Type} `{!IInputSource Src} `{!IMspMessageHandler W}
    (fuel : nat) (is_file : bool) (src : Src) (p : MspMessageParser) (w : W)
  : LoopResult Src W :=
  match fuel with
  | O => Running src p w
  | S fuel' =>
      let '(bytesRead, buffer, src') := receiveData src BUFFER_SIZE in
      if bytesRead >? 0 then
        match feed p (take (Z.to_nat bytesRead) buffer) w with
        | Some (p', w') => read_loop fuel' is_file src' p' w'
        | None => Faulted
        end
      else if (bytesRead =? -1) && is_file then Exited p w
      else read_loop fuel' is_file src' p w
  end.

(** * Properties *)

Example feed_empty_variant :
  feed MspMessageParser_new (wire_frame OUTBOUND 102 []) ([] : Recorder)
  = Some (reset, [mkMspMessage OUTBOUND FC_VARIANT 0 102 (payload zero_msg)]).
Proof. reflexivity. Qed.

(** ** Bytes *)

Lemma to_uint8_is_byte (z : Z) : is_byte (to_uint8 z).
Proof. unfold is_byte, to_uint8. apply Z.mod_pos_bound. lia. Qed.

Lemma to_uint8_small (z : Z) : is_byte z -> to_uint8 z = z.
Proof. unfold is_byte, to_uint8. intros Hz. apply Z.mod_small. lia. Qed.

Lemma lxor_is_byte (a b : Z) : is_byte a -> is_byte b -> is_byte (Z.lxor a b).
Proof.
  unfold is_byte. intros [Ha0 Ha] [Hb0 Hb].
  assert (Hx0 : 0 <= Z.lxor a b) by (apply Z.lxor_nonneg; tauto).
  split; [exact Hx0 |].
  destruct (Z.eq_dec (Z.lxor a b) 0) as [-> | Hnz]; [lia |].
  change 256 with (2 ^ 8). apply Z.log2_lt_pow2; [lia |].
  pose proof (Z.log2_lxor a b Ha0 Hb0) as Hlog.
  assert (Hla : Z.log2 a < 8).
  { destruct (Z.eq_dec a 0) as [-> | ?]; [reflexivity |].
    apply Z.log2_lt_pow2; [lia | exact Ha]. }
  assert (Hlb : Z.log2 b < 8).
  { destruct (Z.eq_dec b 0) as [-> | ?]; [reflexivity |].
    apply Z.log2_lt_pow2; [lia | exact Hb]. }
  lia.
Qed.

Lemma xor_bytes_is_byte (l : list Z) (seed : Z) :
  is_byte seed -> Forall is_byte l -> is_byte (xor_bytes seed l).
Proof.
  unfold xor_bytes. revert seed.
  induction l as [| x l IH]; intros seed Hs Hl; simpl; [exact Hs |].
  inversion Hl; subst. apply IH; [apply lxor_is_byte |]; assumption.
Qed.

Lemma xor_bytes_snoc (seed : Z) (l : list Z) (x : Z) :
  xor_bytes seed (l ++ [x]) = Z.lxor (xor_bytes seed l) x.
Proof. unfold xor_bytes. rewrite fold_left_app. reflexivity. Qed.

Lemma land_1_testbit (z : Z) : negb (Z.land z 1 =? 0) = Z.testbit z 0.
Proof.
  change 1 with (Z.ones 1). rewrite Z.land_ones by lia.
  change (2 ^ 1) with 2. rewrite Zmod_odd, Z.bit0_odd.
  destruct (Z.odd z); reflexivity.
Qed.

(** ** The parser: steps and streams *)

Section ParserFacts.
Context {W : Type} `{!IMspMessageHandler W}.

Lemma feed_app (p : MspMessageParser) (xs ys : list Z) (w : W) :
  feed p (xs ++ ys) w =
  match feed p xs w with
  | Some (p', w') => feed p' ys w'
  | None => None
  end.
Proof.
  revert p w. induction xs as [| x xs IH]; intros p w; simpl; [reflexivity |].
  destruct (processByte p x w) as [[p' w'] |]; [apply IH | reflexivity].
Qed.

Lemma feed_snoc (p : MspMessageParser) (xs : list Z) (b : Z) (w : W) :
  feed p (xs ++ [b]) w =
  match feed p xs w with
  | Some (p', w') => processByte p' b w'
  | None => None
  end.
Proof.
  rewrite feed_app. destruct (feed p xs w) as [[p' w'] |]; [| reflexivity].
  simpl. destruct (processByte p' b w') as [[? ?] |]; reflexivity.
Qed.

(** The only store that can fault is the one of the PAYLOAD state. *)
Lemma processByte_fault_iff (p : MspMessageParser) (b : Z) (w : W) :
  processByte p b w = None <->
  m_state p = PAYLOAD /\ ~ (0 <= m_bufPtr p < MSP_MAX_PAYLOAD_SIZE).
Proof.
  unfold processByte, payload_store.
  destruct (m_state p) eqn:Hst;
    try (split; [repeat case_match; discriminate | intros [? _]; discriminate]).
  destruct ((0 <=? m_bufPtr p) && (m_bufPtr p <? MSP_MAX_PAYLOAD_SIZE)) eqn:Hin; simpl.
  - apply andb_true_iff in Hin as [H0 H1].
    apply Z.leb_le in H0. apply Z.ltb_lt in H1.
    split; [discriminate | intros [_ Hn]; exfalso; apply Hn; lia].
  - split; [intros _ | reflexivity]. split; [reflexivity |].
    intros [H0 H1]. apply Z.leb_le in H0. apply Z.ltb_lt in H1.
    rewrite H0, H1 in Hin. discriminate.
Qed.
End ParserFacts.

(** ** The framing invariant

    [Framing cs p]: [p] is a parser state that the constructor and
    [processByte] can produce after the bytes [cs] were consumed. Outside
    IDLE the bytes end with the part of a frame read so far, and the
    message under construction is what that part says. *)

Inductive Framing : list Z -> MspMessageParser -> Prop :=
| Framing_idle cs :
    Framing cs reset
| Framing_version pre :
    Framing (pre ++ [36]) (set_state VERSION reset)
| Framing_direction pre :
    Framing (pre ++ [36; 77]) (set_state DIRECTION reset)
| Framing_size pre d :
    Framing (pre ++ [36; 77; Direction_marker d])
            (mkParser SIZE (set_direction d zero_msg) 0)
| Framing_cmd pre d len :
    is_byte len ->
    Framing (pre ++ [36; 77; Direction_marker d; len])
            (mkParser CMD (mkMspMessage d UNKNOWN len len (payload zero_msg)) 0)
| Framing_payload pre d len c pay (k : nat) :
    is_byte len -> is_byte c -> length pay = 256%nat -> Z.of_nat k < len ->
    Framing (pre ++ frame_header (Direction_marker d) len c ++ take k pay)
            (mkParser PAYLOAD
               (mkMspMessage d (toMspCommand c) len
                  (xor_bytes (Z.lxor len c) (take k pay)) pay)
               (Z.of_nat k))
| Framing_checksum pre d len c pay :
    is_byte len -> is_byte c -> length pay = 256%nat ->
    Framing (pre ++ frame_header (Direction_marker d) len c ++ take (Z.to_nat len) pay)
            (mkParser CHECKSUM
               (mkMspMessage d (toMspCommand c) len
                  (xor_bytes (Z.lxor len c) (take (Z.to_nat len) pay)) pay)
               len).

(** The bytes of the frame that the message [m] with command byte [c]
    stands for. *)
Definition frame_of (m : MspMessage) (c : Z) : list Z :=
  frame_header (Direction_marker (direction m)) (size m) c
  ++ take (Z.to_nat (size m)) (payload m) ++ [checksum m].

(** [Received cs m]: the bytes [cs] contain a frame that [m] stands for,
    and the checksum of [m] is the exclusive-or of its length byte, its
    command byte and its payload bytes. *)
Definition Received (cs : list Z) (m : MspMessage) : Prop :=
  exists pre post c,
    cs = pre ++ frame_of m c ++ post /\
    is_byte c /\ is_byte (size m) /\
    cmd m = toMspCommand c /\
    checksum m = xor_bytes (Z.lxor (size m) c) (take (Z.to_nat (size m)) (payload m)).

Lemma Framing_eq (cs cs' : list Z) (p p' : MspMessageParser) :
  Framing cs p -> cs = cs' -> p = p' -> Framing cs' p'.
Proof. intros HF -> ->. exact HF. Qed.

Lemma Received_app (cs more : list Z) (m : MspMessage) :
  Received cs m -> Received (cs ++ more) m.
Proof.
  intros (pre & post & c & -> & Hrest).
  exists pre, (post ++ more), c. split; [| exact Hrest].
  rewrite <- !app_assoc. reflexivity.
Qed.

Lemma take_store (pay : list Z) (k : nat) (x : Z) :
  (k < length pay)%nat -> take (S k) (<[k := x]> pay) = take k pay ++ [x].
Proof.
  intros Hk. rewrite (take_S_r _ _ x) by (apply list_lookup_insert_eq; exact Hk).
  rewrite take_insert_ge by lia. reflexivity.
Qed.

Lemma Framing_established : Framing [] MspMessageParser_new.
Proof. apply Framing_idle. Qed.

Lemma Framing_idle_reset (cs : list Z) (p : MspMessageParser) :
  Framing cs p -> m_state p = IDLE -> p = reset.
Proof. intros HF Hst. destruct HF; simpl in Hst; congruence. Qed.

Lemma Framing_bounds (cs : list Z) (p : MspMessageParser) :
  Framing cs p ->
  length (payload (m_msg p)) = 256%nat /\
  is_byte (size (m_msg p)) /\
  (m_state p = PAYLOAD -> 0 <= m_bufPtr p < size (m_msg p)).
Proof.
  intros HF. destruct HF; cbn [m_msg m_state m_bufPtr payload size reset set_state
                                 set_direction zero_msg];
    unfold is_byte in *; repeat split;
    try assumption; try discriminate; try lia; try (intros _; lia);
    apply length_replicate.
Qed.

Section FramingSteps.
Context {W : Type} `{!IMspMessageHandler W}.

(** What one call of [processByte] does to the handler. *)
Definition delivery (cs : list Z) (p : MspMessageParser) (byte : Z) (w w' : W) : Prop :=
  (m_state p = CHECKSUM /\ checksum (m_msg p) = byte /\
   w' = onMspMessage (m_msg p) w /\ Received (cs ++ [byte]) (m_msg p))
  \/
  (~ (m_state p = CHECKSUM /\ checksum (m_msg p) = byte) /\ w' = w).

Lemma processByte_framing (cs : list Z) (p : MspMessageParser) (b : Z) (w : W) :
  Framing cs p ->
  exists p' w',
    processByte p b w = Some (p', w') /\
    Framing (cs ++ [to_uint8 b]) p' /\
    delivery cs p (to_uint8 b) w w' /\
    (m_state p = CHECKSUM -> p' = reset).
Proof.
  intros HF. unfold processByte, delivery. cbv zeta.
  pose proof (to_uint8_is_byte b) as Hbyte.
  generalize dependent (to_uint8 b). intros byte Hbyte.
  destruct HF as [cs | pre | pre | pre d | pre d len Hlen
                  | pre d len c pay k Hlen Hc Hpay Hk
                  | pre d len c pay Hlen Hc Hpay];
    cbn [m_state m_msg m_bufPtr reset set_state].
  - (* IDLE *)
    destruct (Z.eqb_spec byte 36) as [-> | _]; eexists _, _;
      (split; [reflexivity |]); (split; [| split; [right; split; [intros [? _]; discriminate | reflexivity] | discriminate]]).
    + apply Framing_version.
    + apply Framing_idle.
  - (* VERSION *)
    destruct (Z.eqb_spec byte 77) as [-> | _]; eexists _, _;
      (split; [reflexivity |]); (split; [| split; [right; split; [intros [? _]; discriminate | reflexivity] | discriminate]]).
    + eapply Framing_eq; [apply (Framing_direction pre) | | reflexivity].
      rewrite <- app_assoc. reflexivity.
    + apply Framing_idle.
  - (* DIRECTION *)
    destruct (Z.eqb_spec byte 60) as [-> | _]; [| destruct (Z.eqb_spec byte 62) as [-> | _]];
      eexists _, _;
      (split; [reflexivity |]); (split; [| split; [right; split; [intros [? _]; discriminate | reflexivity] | discriminate]]).
    + eapply Framing_eq; [apply (Framing_size pre OUTBOUND) | | reflexivity].
      rewrite <- app_assoc. reflexivity.
    + eapply Framing_eq; [apply (Framing_size pre INBOUND) | | reflexivity].
      rewrite <- app_assoc. reflexivity.
    + apply Framing_idle.
  - (* SIZE *)
    cbn [size set_cmd set_checksum set_size set_direction zero_msg direction cmd checksum payload].
    destruct (byte >? MSP_MAX_PAYLOAD_SIZE); eexists _, _;
      (split; [reflexivity |]); (split; [| split; [right; split; [intros [? _]; discriminate | reflexivity] | discriminate]]).
    + apply Framing_idle.
    + eapply Framing_eq; [apply (Framing_cmd pre d byte Hbyte) | | reflexivity].
      rewrite <- app_assoc. reflexivity.
  - (* CMD *)
    cbn [size set_cmd set_checksum direction cmd checksum payload].
    eexists _, _.
    (split; [reflexivity |]); (split; [| split; [right; split; [intros [? _]; discriminate | reflexivity] | discriminate]]).
    destruct (Z.eqb_spec len 0) as [-> | Hnz].
    + eapply Framing_eq;
        [apply (Framing_checksum pre d 0 byte (payload zero_msg) Hlen Hbyte) | | reflexivity].
      * apply length_replicate.
      * rewrite <- app_assoc. reflexivity.
    + eapply Framing_eq;
        [apply (Framing_payload pre d len byte (payload zero_msg) 0 Hlen Hbyte) | | reflexivity].
      * apply length_replicate.
      * unfold is_byte in Hlen. lia.
      * rewrite <- app_assoc. reflexivity.
  - (* PAYLOAD *)
    cbn [size set_payload set_checksum direction cmd checksum payload].
    unfold is_byte in Hlen.
    assert (Hin : payload_store pay (Z.of_nat k) byte = Some (<[k := byte]> pay)).
    { unfold payload_store, MSP_MAX_PAYLOAD_SIZE.
      replace (0 <=? Z.of_nat k) with true by (symmetry; apply Z.leb_le; lia).
      replace (Z.of_nat k <? 256) with true by (symmetry; apply Z.ltb_lt; lia).
      rewrite Nat2Z.id. reflexivity. }
    rewrite Hin. cbn [mbind option_bind].
    assert (Hptr : to_uint16 (Z.of_nat k + 1) = Z.of_nat (S k)).
    { unfold to_uint16. rewrite Z.mod_small by lia. lia. }
    rewrite Hptr.
    assert (Htake : take (S k) (<[k := byte]> pay) = take k pay ++ [byte])
      by (apply take_store; lia).
    assert (Hlen' : length (<[k := byte]> pay) = 256%nat)
      by (rewrite length_insert; exact Hpay).
    eexists _, _.
    (split; [reflexivity |]); (split; [| split; [right; split; [intros [? _]; discriminate | reflexivity] | discriminate]]).
    destruct (Z.eqb_spec (Z.of_nat (S k)) len) as [Heq | Hne].
    + eapply Framing_eq;
        [apply (Framing_checksum pre d len c (<[k := byte]> pay)); try assumption; unfold is_byte; lia | | ].
      * rewrite <- Heq, Nat2Z.id, Htake, <- !app_assoc. reflexivity.
      * rewrite <- Heq at 2 3. rewrite Nat2Z.id, Htake, xor_bytes_snoc. rewrite Heq. reflexivity.
    + eapply Framing_eq;
        [apply (Framing_payload pre d len c (<[k := byte]> pay) (S k)); try assumption; unfold is_byte; lia | | ].
      * rewrite Htake, <- !app_assoc. reflexivity.
      * rewrite Htake, xor_bytes_snoc. reflexivity.
  - (* CHECKSUM *)
    cbn [checksum].
    destruct (Z.eqb_spec (xor_bytes (Z.lxor len c) (take (Z.to_nat len) pay)) byte)
      as [Heq | Hne];
      eexists _, _; (split; [reflexivity |]); (split; [apply Framing_idle |]);
      (split; [| reflexivity]).
    + left. split; [reflexivity |]. split; [exact Heq |]. split; [reflexivity |].
      exists pre, [], c. unfold frame_of. cbn [direction size payload checksum cmd].
      split; [| split; [exact Hc |]; split; [exact Hlen |]; split; reflexivity].
      rewrite Heq, app_nil_r, <- !app_assoc. reflexivity.
    + right. split; [intros [_ ?]; contradiction | reflexivity].
Qed.
End FramingSteps.

(** ** Streams keep the invariant *)

Section FramingStreams.
Context {W : Type} `{!IMspMessageHandler W}.

(** [feed] never faults from a framed state, keeps the framing, and keeps
    any property [I] of the handler's state that survives more input and
    the delivery of a received frame. *)
Lemma feed_framing (I : list Z -> W -> Prop) :
  (forall cs x w, I cs w -> I (cs ++ [x]) w) ->
  (forall cs m w, I cs w -> Received cs m -> I cs (onMspMessage m w)) ->
  forall bs cs p w,
    Framing cs p -> I cs w ->
    exists p' w',
      feed p bs w = Some (p', w') /\
      Framing (cs ++ map to_uint8 bs) p' /\
      I (cs ++ map to_uint8 bs) w'.
Proof.
  intros Hmore Hdeliver.
  induction bs as [| b bs IH]; intros cs p w HF HI.
  - exists p, w. rewrite app_nil_r. auto.
  - destruct (processByte_framing cs p b w HF)
      as (p1 & w1 & Hstep & HF1 & Hdel & _).
    assert (HI1 : I (cs ++ [to_uint8 b]) w1).
    { destruct Hdel as [(_ & _ & -> & Hrecv) | (_ & ->)].
      - apply Hdeliver; [apply Hmore; exact HI | exact Hrecv].
      - apply Hmore; exact HI. }
    destruct (IH _ _ _ HF1 HI1) as (p' & w' & Hfeed & HF' & HI').
    exists p', w'. cbn [feed map]. rewrite Hstep.
    replace (cs ++ to_uint8 b :: map to_uint8 bs)
      with ((cs ++ [to_uint8 b]) ++ map to_uint8 bs)
      by (rewrite <- app_assoc; reflexivity).
    auto.
Qed.

Lemma feed_total (bs : list Z) (w : W) :
  exists p' w',
    feed MspMessageParser_new bs w = Some (p', w') /\
    Framing (map to_uint8 bs) p'.
Proof.
  destruct (feed_framing (fun _ _ => True) ltac:(auto) ltac:(auto)
              bs [] MspMessageParser_new w Framing_established I)
    as (p' & w' & Hfeed & HF & _).
  exists p', w'. auto.
Qed.

(** Bytes that are not the start marker leave an idle parser idle. *)
Lemma feed_markerless (bs : list Z) (w : W) :
  Forall (fun b => to_uint8 b <> 36) bs -> feed reset bs w = Some (reset, w).
Proof.
  induction 1 as [| b bs Hb _ IH]; [reflexivity |].
  cbn [feed]. unfold processByte at 1. cbn [m_state reset].
  destruct (Z.eqb_spec (to_uint8 b) 36) as [? | _]; [contradiction | exact IH].
Qed.
End FramingStreams.

(** The recorder holds only received frames. *)
Lemma recorder_received (bs : list Z) (p : MspMessageParser) (seen : Recorder) :
  feed MspMessageParser_new bs ([] : Recorder) = Some (p, seen) ->
  Framing (map to_uint8 bs) p /\ Forall (Received (map to_uint8 bs)) seen.
Proof.
  intros Hfeed.
  destruct (feed_framing (W := Recorder) (fun cs seen => Forall (Received cs) seen))
    with (bs := bs) (cs := @nil Z) (p := MspMessageParser_new) (w := @nil MspMessage)
    as (p' & seen' & Hfeed' & HF & Hall).
  - intros cs x w Hall. eapply Forall_impl; [exact Hall |].
    intros m Hm. apply Received_app. exact Hm.
  - intros cs m w Hall Hm. unfold onMspMessage, Recorder_handler.
    apply Forall_app. split; [exact Hall | constructor; [exact Hm | constructor]].
  - apply Framing_established.
  - constructor.
  - rewrite Hfeed in Hfeed'. injection Hfeed' as <- <-. auto.
Qed.

(** ** Decoding one well-formed frame *)

(** The message a frame with command byte [c] and payload [pl] decodes to
    in a parser that was reset: the payload bytes, then the zeros left by
    [reset]. *)
Definition decoded (d : Direction) (c : Z) (pl : list Z) : MspMessage :=
  let len := Z.of_nat (length pl) in
  mkMspMessage d (toMspCommand c) len (xor_bytes (Z.lxor len c) pl)
    (pl ++ drop (length pl) (payload zero_msg)).

Section Decoding.
Context {W : Type} `{!IMspMessageHandler W}.

Lemma feed_header (d : Direction) (len c : Z) (w : W) :
  is_byte len -> is_byte c ->
  feed reset (frame_header (Direction_marker d) len c) w =
  Some (mkParser (if len =? 0 then CHECKSUM else PAYLOAD)
          (mkMspMessage d (toMspCommand c) len (Z.lxor len c) (payload zero_msg)) 0,
        w).
Proof.
  intros Hlen Hc. unfold frame_header. cbn [feed].
  change (processByte reset 36 w) with (Some (set_state VERSION reset, w)).
  cbv beta iota.
  change (processByte (set_state VERSION reset) 77 w)
    with (Some (set_state DIRECTION reset, w)).
  cbv beta iota.
  replace (processByte (set_state DIRECTION reset) (Direction_marker d) w)
    with (Some (mkParser SIZE (set_direction d zero_msg) 0, w))
    by (destruct d; reflexivity).
  cbv beta iota.
  assert (Hsize : processByte (mkParser SIZE (set_direction d zero_msg) 0) len w =
                  Some (mkParser CMD (mkMspMessage d UNKNOWN len len (payload zero_msg)) 0, w)).
  { unfold processByte. cbn [m_state m_msg size set_cmd set_checksum set_size].
    rewrite (to_uint8_small len Hlen).
    replace (len >? MSP_MAX_PAYLOAD_SIZE) with false; [reflexivity |].
    symmetry. rewrite Z.gtb_ltb. apply Z.ltb_ge.
    unfold is_byte, MSP_MAX_PAYLOAD_SIZE in *. lia. }
  rewrite Hsize. cbv beta iota.
  unfold processByte. cbn [m_state m_msg size cmd checksum direction payload
                           set_cmd set_checksum].
  rewrite (to_uint8_small c Hc). reflexivity.
Qed.

Lemma feed_payload (rest : list Z) :
  forall (k : nat) d cm len chk pay (w : W),
    Forall is_byte rest -> rest <> [] -> length pay = 256%nat ->
    Z.of_nat (k + length rest) = len -> len < 256 ->
    feed (mkParser PAYLOAD (mkMspMessage d cm len chk pay) (Z.of_nat k)) rest w =
    Some (mkParser CHECKSUM
            (mkMspMessage d cm len (xor_bytes chk rest)
               (take k pay ++ rest ++ drop (k + length rest) pay))
            len,
          w).
Proof.
  induction rest as [| x rest IH]; intros k d cm len chk pay w Hall Hne Hpay Hlen Hlt;
    [contradiction |].
  inversion Hall as [| ? ? Hx Hrest]; subst x0 l.
  cbn [length] in Hlen.
  cbn [feed]. unfold processByte at 1.
  cbn [m_state m_msg m_bufPtr size payload checksum set_payload set_checksum
       direction cmd].
  rewrite (to_uint8_small x Hx).
  assert (Hin : payload_store pay (Z.of_nat k) x = Some (<[k := x]> pay)).
  { unfold payload_store, MSP_MAX_PAYLOAD_SIZE.
    replace (0 <=? Z.of_nat k) with true by (symmetry; apply Z.leb_le; lia).
    replace (Z.of_nat k <? 256) with true by (symmetry; apply Z.ltb_lt; lia).
    rewrite Nat2Z.id. reflexivity. }
  rewrite Hin. cbn [mbind option_bind].
  assert (Hptr : to_uint16 (Z.of_nat k + 1) = Z.of_nat (S k)).
  { unfold to_uint16. rewrite Z.mod_small by lia. lia. }
  rewrite Hptr.
  unfold set_checksum, set_payload. cbn [direction cmd size checksum payload].
  assert (Hins : <[k := x]> pay = take k pay ++ x :: drop (S k) pay)
    by (apply insert_take_drop; lia).
  destruct rest as [| y rest'].
  - cbn [length] in Hlen.
    assert (len = Z.of_nat (S k)) as -> by lia.
    rewrite Z.eqb_refl.
    cbn [feed xor_bytes fold_left length].
    rewrite Hins. replace (k + 1)%nat with (S k) by lia. reflexivity.
  - replace (Z.of_nat (S k) =? len) with false
      by (symmetry; apply Z.eqb_neq; cbn [length] in Hlen; lia).
    cbv beta iota.
    rewrite (IH (S k)); try assumption; try discriminate.
    + f_equal. f_equal. f_equal.
      rewrite take_store by lia.
      rewrite drop_insert_lt by lia.
      cbn [length]. rewrite <- app_assoc.
      replace (S k + S (length rest'))%nat with (k + S (S (length rest')))%nat by lia.
      reflexivity.
    + rewrite length_insert. exact Hpay.
    + cbn [length] in *. lia.
Qed.

Lemma processByte_checksum_match d cm len chk pay k (w : W) :
  is_byte chk ->
  processByte (mkParser CHECKSUM (mkMspMessage d cm len chk pay) k) chk w =
  Some (reset, onMspMessage (mkMspMessage d cm len chk pay) w).
Proof.
  intros Hchk. unfold processByte. cbn [m_state m_msg checksum].
  rewrite (to_uint8_small chk Hchk), Z.eqb_refl. reflexivity.
Qed.

(** A reset parser fed one well-formed frame hands the decoded message to
    the handler, once, and is reset again. *)
Lemma feed_wire_frame (d : Direction) (c : Z) (pl : list Z) (w : W) :
  is_byte c -> Forall is_byte pl -> (length pl <= 255)%nat ->
  feed reset (wire_frame d c pl) w = Some (reset, onMspMessage (decoded d c pl) w).
Proof.
  intros Hc Hpl Hlen.
  assert (Hlenb : is_byte (Z.of_nat (length pl))) by (unfold is_byte; lia).
  assert (Hchk : is_byte (xor_bytes (Z.lxor (Z.of_nat (length pl)) c) pl))
    by (apply xor_bytes_is_byte; [apply lxor_is_byte |]; assumption).
  unfold wire_frame, decoded. cbv zeta.
  rewrite feed_app, feed_header by assumption.
  rewrite feed_app.
  destruct pl as [| x pl'].
  - change (Z.of_nat (length []) =? 0) with true. cbv beta iota.
    cbn [feed]. rewrite processByte_checksum_match by exact Hchk.
    reflexivity.
  - replace (Z.of_nat (length (x :: pl')) =? 0) with false
      by (symmetry; apply Z.eqb_neq; cbn [length]; lia).
    cbv beta iota.
    rewrite (feed_payload (x :: pl') 0); try assumption; try discriminate;
      try apply length_replicate; try lia.
    cbn [feed]. rewrite processByte_checksum_match by exact Hchk.
    reflexivity.
Qed.
End Decoding.

(** ** The dispatcher *)

Lemma lookup_registerExecutor (c c' : MspCommand) (x : IMspCommandExecutor)
    (d : MspCommandDispatcher) :
  m_executors (registerExecutor c x d) !! c' =
  if decide (c = c')
  then Some (default [] (m_executors d !! c) ++ [x])
  else m_executors d !! c'.
Proof. unfold registerExecutor. cbn [m_executors]. apply lookup_insert. Qed.

Lemma run_executors_app (xs ys : list IMspCommandExecutor) (msg : MspMessage) (e : Env) :
  run_executors (xs ++ ys) msg e = run_executors ys msg (run_executors xs msg e).
Proof. unfold run_executors. apply fold_left_app. Qed.

Lemma dispatch_registered (d : MspCommandDispatcher) (x : IMspCommandExecutor)
    (msg : MspMessage) (e : Env) :
  dispatchMessage (registerExecutor (cmd msg) x d) msg e =
  execute x msg (run_executors (default [] (m_executors d !! cmd msg)) msg e).
Proof.
  unfold dispatchMessage. rewrite lookup_registerExecutor.
  rewrite decide_True by reflexivity. rewrite run_executors_app. reflexivity.
Qed.

(** What the STATUS executor does to the data model. *)
Lemma StatusCommandExecutor_model (msg : MspMessage) (e : Env) :
  flightModel (execute StatusCommandExecutor msg e) =
  if size msg >? 6
  then set_armed (Z.testbit (payload_at msg 6) 0) (flightModel e)
  else flightModel e.
Proof.
  cbn [execute StatusCommandExecutor]. rewrite land_1_testbit.
  destruct (size msg >? 6);
    match goal with |- context [if verbose ?m then _ else _] => destruct (verbose m) end;
    reflexivity.
Qed.

Lemma lookup_new_STATUS :
  m_executors MspCommandDispatcher_new !! STATUS = Some [StatusCommandExecutor].
Proof.
  unfold MspCommandDispatcher_new. rewrite !lookup_registerExecutor.
  cbn [m_executors]. rewrite lookup_empty. reflexivity.
Qed.

(** ** Executors and the frame buffer *)

(** An executor that leaves the staging buffer of the model alone. *)
Definition keeps_frame_buffer (x : IMspCommandExecutor) : Prop :=
  forall msg e,
    frameBuffer (flightModel (execute x msg e)) = frameBuffer (flightModel e) /\
    fbCursor (flightModel (execute x msg e)) = fbCursor (flightModel e).

Ltac executor_cases :=
  intros msg e; cbn [execute];
  repeat match goal with
         | |- context [if ?c then _ else _] => destruct c
         end;
  split; reflexivity.

Lemma Status_keeps_frame_buffer : keeps_frame_buffer StatusCommandExecutor.
Proof. unfold StatusCommandExecutor. executor_cases. Qed.

Lemma Attitude_keeps_frame_buffer : keeps_frame_buffer AttitudeCommandExecutor.
Proof. unfold AttitudeCommandExecutor. executor_cases. Qed.

Lemma FcVariant_keeps_frame_buffer : keeps_frame_buffer FcVariantCommandExecutor.
Proof. unfold FcVariantCommandExecutor. executor_cases. Qed.

Lemma RcConsole_keeps_frame_buffer : keeps_frame_buffer RcCommandConsoleExecutor.
Proof. unfold RcCommandConsoleExecutor. executor_cases. Qed.

Lemma RcAlink_keeps_frame_buffer (outPort : Z) :
  keeps_frame_buffer (RcCommandAlinkForwarder outPort).
Proof. unfold RcCommandAlinkForwarder. executor_cases. Qed.

Create HintDb executors.

#[local] Hint Resolve Status_keeps_frame_buffer Attitude_keeps_frame_buffer
  FcVariant_keeps_frame_buffer RcConsole_keeps_frame_buffer
  RcAlink_keeps_frame_buffer : executors.

Lemma run_executors_keeps (xs : list IMspCommandExecutor) (msg : MspMessage) (e : Env) :
  Forall keeps_frame_buffer xs ->
  frameBuffer (flightModel (run_executors xs msg e)) = frameBuffer (flightModel e) /\
  fbCursor (flightModel (run_executors xs msg e)) = fbCursor (flightModel e).
Proof.
  intros Hall. revert e. induction Hall as [| x xs Hx _ IH]; intros e.
  - split; reflexivity.
  - cbn [run_executors fold_left]. fold (run_executors xs msg (execute x msg e)).
    destruct (IH (execute x msg e)) as [-> ->]. apply Hx.
Qed.

Lemma main_wiring_keeps (outPort now : Z) (c : MspCommand) (xs : list IMspCommandExecutor) :
  m_executors (m_dispatcher (fst (main_wiring outPort now))) !! c = Some xs ->
  Forall keeps_frame_buffer xs.
Proof.
  unfold main_wiring. cbv zeta.
  destruct (outPort >? 0); cbn [fst m_dispatcher handler_register MspMessageHandler_new];
    unfold MspCommandDispatcher_new; rewrite !lookup_registerExecutor;
    cbn [m_executors]; rewrite !lookup_empty;
    destruct c; cbn; intros [= <-];
    repeat first [apply List.Forall_nil | apply List.Forall_cons; [solve [auto with executors] |]].
Qed.

Lemma dispatchMessage_keeps (outPort now : Z) (msg : MspMessage) (e : Env) :
  let d := m_dispatcher (fst (main_wiring outPort now)) in
  frameBuffer (flightModel (dispatchMessage d msg e)) = frameBuffer (flightModel e) /\
  fbCursor (flightModel (dispatchMessage d msg e)) = fbCursor (flightModel e).
Proof.
  cbv zeta. unfold dispatchMessage.
  destruct (m_executors _ !! cmd msg) as [xs |] eqn:Hxs.
  - apply run_executors_keeps. eapply main_wiring_keeps. exact Hxs.
  - destruct (verbose (flightModel e)); split; reflexivity.
Qed.

(** * The claims of the specification *)

(** ** C1: resynchronisation *)

(** C1, as stated, fails. The garbage is the single byte [0x24]: it holds
    no frame and feeding it delivers nothing, but it moves the parser to
    VERSION, so the ['$'] of the well-formed frame that follows is the
    mismatching byte that VERSION discards, and the rest of the frame is
    skipped in IDLE. No frame is delivered instead of one. *)
Lemma resync_lost_after_stray_marker :
  feed MspMessageParser_new [0x24] ([] : Recorder)
  = Some (set_state VERSION reset, [])
  /\ feed MspMessageParser_new ([0x24] ++ wire_frame OUTBOUND 102 []) ([] : Recorder)
     = Some (reset, []).
Proof. split; reflexivity. Qed.

(** C1, amended: when the garbage bytes deliver no frame and leave the
    parser in IDLE, the well-formed frame that follows is delivered, once,
    whatever the number and the content of the garbage bytes; the parser is
    reset afterwards. *)
Theorem resync_after_idle_garbage
    (garbage : list Z) (d : Direction) (c : Z) (pl : list Z) (p : MspMessageParser) :
  is_byte c -> Forall is_byte pl -> (length pl <= 255)%nat ->
  feed MspMessageParser_new garbage ([] : Recorder) = Some (p, []) ->
  m_state p = IDLE ->
  feed MspMessageParser_new (garbage ++ wire_frame d c pl) ([] : Recorder)
  = Some (reset, [decoded d c pl]).
Proof.
  intros Hc Hpl Hlen Hgarbage Hidle.
  destruct (recorder_received _ _ _ Hgarbage) as [HF _].
  rewrite (Framing_idle_reset _ _ HF Hidle) in Hgarbage.
  rewrite feed_app, Hgarbage.
  rewrite feed_wire_frame by assumption. reflexivity.
Qed.

Lemma resync_after_idle_garbage_witness :
  feed MspMessageParser_new
    ([0x24; 0; 0xFF; 0x24; 0x4D; 9; 0x4D] ++ wire_frame INBOUND 7 [5; 6]) ([] : Recorder)
  = Some (reset, [decoded INBOUND 7 [5; 6]]).
Proof.
  apply (resync_after_idle_garbage [0x24; 0; 0xFF; 0x24; 0x4D; 9; 0x4D] INBOUND 7 [5; 6] reset).
  - unfold is_byte. lia.
  - repeat (apply List.Forall_cons; [unfold is_byte; lia |]). apply List.Forall_nil.
  - simpl. lia.
  - reflexivity.
  - reflexivity.
Defined.

(** ** C2: unknown commands *)

(** C2, as stated, fails. The frames with command bytes 7 and 8 are
    delivered with the same command, [UNKNOWN], whose value is 255: the
    byte that was received is not the command of the message. *)
Lemma unknown_ids_collapse :
  feed MspMessageParser_new (wire_frame OUTBOUND 7 []) ([] : Recorder)
  = Some (reset, [mkMspMessage OUTBOUND UNKNOWN 0 7 (payload zero_msg)])
  /\ feed MspMessageParser_new (wire_frame OUTBOUND 8 []) ([] : Recorder)
     = Some (reset, [mkMspMessage OUTBOUND UNKNOWN 0 8 (payload zero_msg)])
  /\ MspCommand_value UNKNOWN = 255.
Proof. repeat split; reflexivity. Qed.

(** C2, amended: a frame whose command byte is none of 101, 102, 105, 108
    is still delivered, with the command [UNKNOWN] (255) in the place of
    the byte, and an executor registered for [UNKNOWN] is run on it, after
    those registered for [UNKNOWN] before it. *)
Theorem unknown_command_tagged
    (d : Direction) (c : Z) (pl : list Z)
    (x : IMspCommandExecutor) (disp : MspCommandDispatcher) (e : Env) :
  is_byte c -> c <> 101 -> c <> 102 -> c <> 105 -> c <> 108 ->
  Forall is_byte pl -> (length pl <= 255)%nat ->
  feed MspMessageParser_new (wire_frame d c pl) ([] : Recorder)
  = Some (reset, [decoded d c pl])
  /\ cmd (decoded d c pl) = UNKNOWN
  /\ MspCommand_value (cmd (decoded d c pl)) = 255
  /\ dispatchMessage (registerExecutor UNKNOWN x disp) (decoded d c pl) e
     = execute x (decoded d c pl)
         (run_executors (default [] (m_executors disp !! UNKNOWN)) (decoded d c pl) e).
Proof.
  intros Hc H101 H102 H105 H108 Hpl Hlen.
  assert (Hcmd : toMspCommand c = UNKNOWN).
  { unfold toMspCommand.
    destruct (Z.eqb_spec c 101); [contradiction |].
    destruct (Z.eqb_spec c 108); [contradiction |].
    destruct (Z.eqb_spec c 105); [contradiction |].
    destruct (Z.eqb_spec c 102); [contradiction | reflexivity]. }
  assert (Hdec : cmd (decoded d c pl) = UNKNOWN) by exact Hcmd.
  split; [| split; [exact Hdec | split]].
  - unfold MspMessageParser_new. rewrite feed_wire_frame by assumption. reflexivity.
  - rewrite Hdec. reflexivity.
  - pose proof (dispatch_registered disp x (decoded d c pl) e) as Hrun.
    rewrite Hdec in Hrun. exact Hrun.
Qed.

Lemma unknown_command_tagged_witness :
  feed MspMessageParser_new (wire_frame OUTBOUND 7 [1; 2]) ([] : Recorder)
  = Some (reset, [decoded OUTBOUND 7 [1; 2]])
  /\ cmd (decoded OUTBOUND 7 [1; 2]) = UNKNOWN
  /\ MspCommand_value (cmd (decoded OUTBOUND 7 [1; 2])) = 255
  /\ dispatchMessage (registerExecutor UNKNOWN StatusCommandExecutor MspCommandDispatcher_new)
       (decoded OUTBOUND 7 [1; 2]) (mkEnv FlightDataModel_new [] [] 0)
     = execute StatusCommandExecutor (decoded OUTBOUND 7 [1; 2])
         (run_executors (default [] (m_executors MspCommandDispatcher_new !! UNKNOWN))
            (decoded OUTBOUND 7 [1; 2]) (mkEnv FlightDataModel_new [] [] 0)).
Proof.
  apply (unknown_command_tagged OUTBOUND 7 [1; 2] StatusCommandExecutor
           MspCommandDispatcher_new (mkEnv FlightDataModel_new [] [] 0));
    try lia; try (unfold is_byte; lia).
  - repeat (apply List.Forall_cons; [unfold is_byte; lia |]). apply List.Forall_nil.
  - simpl. lia.
Defined.

(** ** C3: the length bound *)



(** The longest frame that can be declared, 255 payload bytes, is
    delivered. *)
Example longest_frame_delivered :
  feed MspMessageParser_new (wire_frame OUTBOUND 108 (replicate 255 1)) ([] : Recorder)
  = Some (reset, [decoded OUTBOUND 108 (replicate 255 1)]).
Proof. vm_compute. reflexivity. Qed.

(** ** C4: the STATUS scenario *)

(** What is observed after a run of [main]: the state of the parser, the
    model of [main], the console and the datagrams. *)
Definition outcome (r : option (MspMessageParser * (MspMessageHandler * Env)))
  : option (ParserState * FlightDataModel * list LogLine * list Datagram) :=
  match r with
  | Some (p, (_, e)) => Some (m_state p, flightModel e, console e, datagrams e)
  | None => None
  end.

(** The bytes of the scenario as the specification lists them, with [xx]
    the exclusive-or of the length, the command and the listed payload. *)
Definition status_scenario_listed : list Z :=
  [0x24; 0x4D; 0x3C; 0x07; 0x69; 0x00; 0x00; 0x00; 0x00; 0x00; 0x01; 0x6F].

(** A STATUS frame with seven payload bytes, the last being [0x01]. *)
Definition status_scenario_frame : list Z :=
  [0x24; 0x4D; 0x3C; 0x07; 0x65; 0x00; 0x00; 0x00; 0x00; 0x00; 0x00; 0x01; 0x63].

(** C4, as stated, fails. The length 7 is followed by six payload bytes
    only, so [xx] is stored as the seventh and the parser is left waiting
    for a checksum: no message is handled and [armed] stays false. Besides,
    the command byte [0x69] is 105 (RC), not 101 (STATUS, [0x65]): after
    the checksum byte that completes the frame, the message goes to the RC
    executor and [armed] is still false. *)
Lemma status_scenario_listed_incomplete :
  outcome (main_run 0 0 status_scenario_listed)
  = Some (CHECKSUM, set_verbose true FlightDataModel_new, [], [])
  /\ outcome (main_run 0 0 (status_scenario_listed ++ [0x00]))
     = Some (IDLE, set_verbose true FlightDataModel_new, [ReceivedMspMsg 105 7], []).
Proof. split; vm_compute; reflexivity. Qed.

(** C4, amended: the frame [24 4D 3C 07 65 00 00 00 00 00 00 01 63] fed to
    the parser wired as in [main] sets [armed] to true in the model of
    [main] and changes nothing else in it; the console holds the line of
    the message handler and the line of the STATUS executor, no other
    executor prints and no datagram is sent. *)
Theorem status_scenario (outPort now : Z) :
  status_scenario_frame = wire_frame OUTBOUND 101 [0; 0; 0; 0; 0; 0; 1]
  /\ outcome (main_run outPort now status_scenario_frame)
     = Some (IDLE, set_armed true (set_verbose true FlightDataModel_new),
             [ReceivedMspMsg 101 7; StatusArmed true], []).
Proof.
  split; [reflexivity |].
  unfold main_run, main_wiring. cbv zeta.
  destruct (outPort >? 0); vm_compute; reflexivity.
Qed.

(** ** C5: emission *)

(** C5: after any stream, the next byte makes the parser deliver the
    message under construction, whole, exactly when the parser is in
    CHECKSUM and the byte is the accumulated checksum; otherwise nothing is
    delivered; and from CHECKSUM the parser is reset in both cases. *)
Theorem emission_iff_checksum
    (bs : list Z) (b : Z) (p : MspMessageParser) (seen : Recorder) :
  feed MspMessageParser_new bs ([] : Recorder) = Some (p, seen) ->
  exists p' seen',
    feed MspMessageParser_new (bs ++ [b]) ([] : Recorder) = Some (p', seen')
    /\ (seen' = seen ++ [m_msg p]
        <-> m_state p = CHECKSUM /\ checksum (m_msg p) = to_uint8 b)
    /\ (~ (m_state p = CHECKSUM /\ checksum (m_msg p) = to_uint8 b) -> seen' = seen)
    /\ (m_state p = CHECKSUM -> p' = reset).
Proof.
  intros Hfeed.
  destruct (recorder_received _ _ _ Hfeed) as [HF _].
  destruct (processByte_framing _ p b seen HF) as (p' & seen' & Hstep & _ & Hdel & Hreset).
  exists p', seen'. rewrite feed_snoc, Hfeed.
  split; [exact Hstep |]. split; [| split; [| exact Hreset]].
  - destruct Hdel as [(Hst & Hchk & -> & _) | (Hno & ->)].
    + split; [intros _; split; assumption | reflexivity].
    + split; [| intros Hyes; contradiction].
      intros Habs. exfalso.
      apply (f_equal (@length MspMessage)) in Habs.
      rewrite length_app in Habs. cbn [length] in Habs. lia.
  - intros Hno. destruct Hdel as [(Hst & Hchk & _) | (_ & ->)]; [| reflexivity].
    exfalso. apply Hno. split; assumption.
Qed.

Lemma emission_iff_checksum_witness :
  exists p' seen',
    feed MspMessageParser_new ([0x24; 0x4D; 0x3E; 1; 108; 9] ++ [100]) ([] : Recorder)
    = Some (p', seen')
    /\ (seen' = [] ++ [m_msg (mkParser CHECKSUM
                                (mkMspMessage INBOUND ATTITUDE 1 100
                                   (<[0%nat := 9]> (payload zero_msg))) 1)]
        <-> CHECKSUM = CHECKSUM /\ 100 = to_uint8 100)
    /\ (~ (CHECKSUM = CHECKSUM /\ 100 = to_uint8 100) -> seen' = [])
    /\ (CHECKSUM = CHECKSUM -> p' = reset).
Proof.
  apply (emission_iff_checksum [0x24; 0x4D; 0x3E; 1; 108; 9] 100
           (mkParser CHECKSUM
              (mkMspMessage INBOUND ATTITUDE 1 100 (<[0%nat := 9]> (payload zero_msg))) 1)
           []).
  reflexivity.
Defined.

(** ** C6: the checksum *)

(** C6: every message delivered out of a stream stands for a frame that
    occurs in the stream, and the checksum it was compared with, kept in
    the message, is the exclusive-or of the length byte, the command byte
    and the payload bytes of that frame ([Received]). *)
Theorem emitted_checksum_is_xor
    (bs : list Z) (p : MspMessageParser) (seen : Recorder) :
  feed MspMessageParser_new bs ([] : Recorder) = Some (p, seen) ->
  Forall (fun m =>
            exists pre post c,
              map to_uint8 bs = pre ++ frame_of m c ++ post
              /\ cmd m = toMspCommand c
              /\ checksum m
                 = xor_bytes (Z.lxor (size m) c) (take (Z.to_nat (size m)) (payload m)))
         seen.
Proof.
  intros Hfeed. destruct (recorder_received _ _ _ Hfeed) as [_ Hall].
  eapply Forall_impl; [exact Hall |].
  intros m (pre & post & c & Hcs & _ & _ & Hcmd & Hchk).
  exists pre, post, c. auto.
Qed.

Lemma emitted_checksum_is_xor_witness :
  Forall (fun m =>
            exists pre post c,
              map to_uint8 (1 :: 2 :: wire_frame OUTBOUND 101 [0; 0; 0; 0; 0; 0; 1])
              = pre ++ frame_of m c ++ post
              /\ cmd m = toMspCommand c
              /\ checksum m
                 = xor_bytes (Z.lxor (size m) c) (take (Z.to_nat (size m)) (payload m)))
         [decoded OUTBOUND 101 [0; 0; 0; 0; 0; 0; 1]].
Proof.
  apply (emitted_checksum_is_xor
           (1 :: 2 :: wire_frame OUTBOUND 101 [0; 0; 0; 0; 0; 0; 1]) reset
           [decoded OUTBOUND 101 [0; 0; 0; 0; 0; 0; 1]]).
  reflexivity.
Defined.

(** ** C7: dispatch order *)

(** C7: after [x1] and then [x2] are registered for a command, a message
    of that command is given to the executors registered earlier, then to
    [x1], then to [x2], and [x2] starts from the environment, shared model
    included, that [x1] left. *)
Theorem dispatch_in_registration_order
    (d : MspCommandDispatcher) (c : MspCommand) (x1 x2 : IMspCommandExecutor)
    (msg : MspMessage) (e : Env) :
  cmd msg = c ->
  dispatchMessage (registerExecutor c x2 (registerExecutor c x1 d)) msg e
  = execute x2 msg
      (execute x1 msg
         (run_executors (default [] (m_executors d !! c)) msg e)).
Proof.
  intros <-. rewrite dispatch_registered. f_equal.
  rewrite lookup_registerExecutor, decide_True by reflexivity.
  cbn [from_option]. unfold id. rewrite run_executors_app. reflexivity.
Qed.

(** An executor that prints the [armed] flag it finds in the model. *)
Definition armed_probe : IMspCommandExecutor :=
  mkExecutor (fun _ e => print (StatusArmed (armed (flightModel e))) e).

Lemma dispatch_in_registration_order_witness :
  dispatchMessage
    (registerExecutor STATUS armed_probe
       (registerExecutor STATUS StatusCommandExecutor (mkDispatcher ∅)))
    (decoded OUTBOUND 101 [0; 0; 0; 0; 0; 0; 1])
    (mkEnv (set_verbose false FlightDataModel_new) [] [] 0)
  = execute armed_probe (decoded OUTBOUND 101 [0; 0; 0; 0; 0; 0; 1])
      (execute StatusCommandExecutor (decoded OUTBOUND 101 [0; 0; 0; 0; 0; 0; 1])
         (run_executors (default [] (m_executors (mkDispatcher ∅) !! STATUS))
            (decoded OUTBOUND 101 [0; 0; 0; 0; 0; 0; 1])
            (mkEnv (set_verbose false FlightDataModel_new) [] [] 0))).
Proof.
  apply (dispatch_in_registration_order (mkDispatcher ∅) STATUS
           StatusCommandExecutor armed_probe).
  reflexivity.
Defined.

(** The probe registered second sees the flag set by the STATUS executor
    registered first. *)
Example probe_sees_armed :
  console
    (dispatchMessage
       (registerExecutor STATUS armed_probe
          (registerExecutor STATUS StatusCommandExecutor (mkDispatcher ∅)))
       (decoded OUTBOUND 101 [0; 0; 0; 0; 0; 0; 1])
       (mkEnv (set_verbose false FlightDataModel_new) [] [] 0))
  = [StatusArmed true].
Proof. vm_compute. reflexivity. Qed.

(** ** C8: the STATUS executor *)

(** C8: a message of command STATUS (101) dispatched by a dispatcher as
    constructed sets the [armed] field to bit 0 of cell 6 of the payload
    array when its length is above 6, and leaves [armed] as it was
    otherwise; every other field of the model keeps its value, the console
    gets the line of the executor when the model is verbose, and nothing is
    sent. *)
Theorem status_executor_contract (msg : MspMessage) (e : Env) :
  cmd msg = STATUS ->
  let d := flightModel e in
  let e' := dispatchMessage MspCommandDispatcher_new msg e in
  let d' := flightModel e' in
  (size msg > 6 -> armed d' = Z.testbit (nth 6 (payload msg) 0) 0)
  /\ (size msg <= 6 -> armed d' = armed d)
  /\ pitch d' = pitch d /\ roll d' = roll d /\ heading d' = heading d
  /\ channels d' = channels d /\ fcIdentifier d' = fcIdentifier d
  /\ frameBuffer d' = frameBuffer d /\ fbCursor d' = fbCursor d
  /\ verbose d' = verbose d
  /\ console e' = (if verbose d then console e ++ [StatusArmed (armed d')] else console e)
  /\ datagrams e' = datagrams e.
Proof.
  intros Hcmd. cbv zeta. unfold dispatchMessage. rewrite Hcmd, lookup_new_STATUS.
  cbn [run_executors fold_left execute StatusCommandExecutor].
  rewrite land_1_testbit. unfold payload_at. rewrite <- nth_lookup.
  change (Z.to_nat 6) with 6%nat.
  destruct (Z.gtb_spec (size msg) 6) as [Hgt | Hle];
    destruct (verbose (flightModel e)) eqn:Hv;
    cbn [flightModel set_flightModel set_armed print set_console console datagrams
         armed pitch roll heading channels fcIdentifier frameBuffer fbCursor verbose];
    rewrite ?Hv; repeat split; try reflexivity; try exact Hv; intros Hsz; lia.
Qed.

Lemma status_executor_contract_witness :
  let msg := mkMspMessage OUTBOUND STATUS 7 0 (replicate 6 2 ++ [3] ++ replicate 249 2) in
  let e := mkEnv FlightDataModel_new [] [] 0 in
  size msg > 6
  /\ armed (flightModel e) = false
  /\ armed (flightModel (dispatchMessage MspCommandDispatcher_new msg e)) = true.
Proof.
  cbv zeta. split; [cbn; lia |]. split; [reflexivity |].
  destruct (status_executor_contract
              (mkMspMessage OUTBOUND STATUS 7 0 (replicate 6 2 ++ [3] ++ replicate 249 2))
              (mkEnv FlightDataModel_new [] [] 0) eq_refl) as [Hupdate _].
  rewrite Hupdate; [reflexivity | cbn; lia].
Defined.

(** A STATUS message of length 6 leaves [armed] set, whatever cell 6 holds. *)
Example status_short_message_skipped :
  armed (flightModel
           (dispatchMessage MspCommandDispatcher_new
              (mkMspMessage OUTBOUND STATUS 6 0 (replicate 256 2))
              (mkEnv (set_armed true FlightDataModel_new) [] [] 0)))
  = true.
Proof. reflexivity. Qed.

(** ** C9: payload stores *)

(** C9: whatever the stream and the handler, [feed] does not fault, so
    every store into the payload array went through an index below 256
    ([processByte_fault_iff]); afterwards the stored length is a byte, the
    array has its 256 cells, and in PAYLOAD, where the next store happens,
    the cursor is below the length and below the capacity. *)
Theorem payload_writes_in_bounds
    {W : Type} `{!IMspMessageHandler W} (bs : list Z) (w : W) :
  exists p w',
    feed MspMessageParser_new bs w = Some (p, w')
    /\ 0 <= size (m_msg p) <= 255
    /\ length (payload (m_msg p)) = Z.to_nat MSP_MAX_PAYLOAD_SIZE
    /\ (m_state p = PAYLOAD ->
        0 <= m_bufPtr p < size (m_msg p) /\ m_bufPtr p < MSP_MAX_PAYLOAD_SIZE).
Proof.
  destruct (feed_total bs w) as (p & w' & Hfeed & HF).
  destruct (Framing_bounds _ _ HF) as (Hpay & Hsize & Hptr).
  unfold is_byte in Hsize.
  exists p, w'. split; [exact Hfeed |]. split; [lia |]. split; [exact Hpay |].
  intros Hst. specialize (Hptr Hst). unfold MSP_MAX_PAYLOAD_SIZE. lia.
Qed.

(** ** C10: the handler's copy of the model *)

(** Handling one message: the dispatcher stays, and so does the staging
    buffer of the model of [main]. *)
Lemma onMspMessage_keeps_main_buffer
    (outPort now : Z) (copy : FlightDataModel) (msg : MspMessage) (e : Env) :
  let D := m_dispatcher (fst (main_wiring outPort now)) in
  let w' := onMspMessage msg (mkHandler copy D, e) in
  m_dispatcher (fst w') = D
  /\ frameBuffer (flightModel (snd w')) = frameBuffer (flightModel e)
  /\ fbCursor (flightModel (snd w')) = fbCursor (flightModel e).
Proof.
  cbv zeta. unfold onMspMessage, MspMessageHandler_handler, MspMessageHandler_onMspMessage.
  cbn [m_dataModel m_dispatcher].
  destruct (copyToFrameBuffer _ copy _) as [copy' out].
  cbn [fst snd m_dispatcher]. split; [reflexivity |].
  destruct (dispatchMessage_keeps outPort now msg
              (set_console out
                 (if verbose copy
                  then print (ReceivedMspMsg (MspCommand_value (cmd msg)) (size msg)) e
                  else e))) as [Hfb Hcur].
  cbv zeta in Hfb, Hcur. rewrite Hfb, Hcur.
  destruct (verbose copy); split; reflexivity.
Qed.

(** C10: for a handler with the dispatcher that [main] sets up and any
    copy of the model in [m_dataModel], handling a message leaves
    [frameBuffer] and [fbCursor] of the model of [main] as they were; what
    reaches the environment is the dispatch of the message, after console
    output only; the bytes of the message go to the handler's own copy,
    whose cursor moves and whose [armed] flag the executors do not reach. *)
Theorem handler_copy_is_private
    (outPort now : Z) (copy : FlightDataModel) (msg : MspMessage) (e : Env) :
  let h := mkHandler copy (m_dispatcher (fst (main_wiring outPort now))) in
  let w' := onMspMessage msg (h, e) in
  let sz := Z.of_nat (length (MspMessage_bytes msg)) in
  frameBuffer (flightModel (snd w')) = frameBuffer (flightModel e)
  /\ fbCursor (flightModel (snd w')) = fbCursor (flightModel e)
  /\ (exists out, snd w' = dispatchMessage (m_dispatcher h) msg (set_console out e))
  /\ m_dataModel (fst w')
     = fst (copyToFrameBuffer (MspMessage_bytes msg) copy
              (if verbose copy
               then console e ++ [ReceivedMspMsg (MspCommand_value (cmd msg)) (size msg)]
               else console e))
  /\ fbCursor (m_dataModel (fst w'))
     = (if fbCursor copy + sz >? FRAME_BUFFER_SIZE then 0 else fbCursor copy) + sz
  /\ armed (m_dataModel (fst w')) = armed copy.
Proof.
  cbv zeta. unfold onMspMessage, MspMessageHandler_handler, MspMessageHandler_onMspMessage.
  cbn [m_dataModel m_dispatcher].
  set (e1 := if verbose copy then print _ e else e).
  assert (Hmodel : flightModel e1 = flightModel e)
    by (subst e1; destruct (verbose copy); reflexivity).
  assert (Hconsole : console e1 =
                     if verbose copy
                     then console e ++ [ReceivedMspMsg (MspCommand_value (cmd msg)) (size msg)]
                     else console e)
    by (subst e1; destruct (verbose copy); reflexivity).
  assert (He1 : forall out, set_console out e1 = set_console out e)
    by (intros out; subst e1; destruct (verbose copy); reflexivity).
  rewrite Hconsole.
  destruct (copyToFrameBuffer _ copy _) as [copy' out] eqn:Hcopy.
  cbn [fst snd m_dataModel].
  destruct (dispatchMessage_keeps outPort now msg (set_console out e1)) as [Hfb Hcur].
  cbv zeta in Hfb, Hcur. cbn [flightModel set_console] in Hfb, Hcur.
  rewrite Hmodel in Hfb, Hcur.
  split; [exact Hfb |]. split; [exact Hcur |].
  split; [exists out; rewrite He1; reflexivity |].
  split; [reflexivity |].
  unfold copyToFrameBuffer, flushFrameBuffer in Hcopy.
  destruct (fbCursor copy + Z.of_nat (length (MspMessage_bytes msg)) >? FRAME_BUFFER_SIZE);
    injection Hcopy as <- _; split; reflexivity.
Qed.

(** Over a whole run of [main] the staging buffer of the model of [main]
    stays as it was constructed: all zeros, cursor 0. *)
Lemma main_model_buffer_untouched
    (outPort now : Z) (bs : list Z)
    (p : MspMessageParser) (h : MspMessageHandler) (e : Env) :
  main_run outPort now bs = Some (p, (h, e)) ->
  frameBuffer (flightModel e) = replicate (Z.to_nat FRAME_BUFFER_SIZE) 0
  /\ fbCursor (flightModel e) = 0.
Proof.
  intros Hrun. unfold main_run in Hrun.
  set (D := m_dispatcher (fst (main_wiring outPort now))).
  destruct (feed_framing
              (fun _ (w : MspMessageHandler * Env) =>
                 m_dispatcher (fst w) = D
                 /\ frameBuffer (flightModel (snd w))
                    = replicate (Z.to_nat FRAME_BUFFER_SIZE) 0
                 /\ fbCursor (flightModel (snd w)) = 0))
    with (bs := bs) (cs := @nil Z) (p := MspMessageParser_new)
         (w := main_wiring outPort now)
    as (p' & w' & Hfeed & _ & _ & Hfb & Hcur).
  - auto.
  - intros _ msg [h0 e0] (HD & Hfb & Hcur) _. cbn [fst snd] in HD, Hfb, Hcur.
    destruct h0 as [copy D0]. cbn [m_dispatcher] in HD. subst D0.
    pose proof (onMspMessage_keeps_main_buffer outPort now copy msg e0) as Hstep.
    cbv zeta in Hstep. fold D in Hstep. destruct Hstep as (HD' & Hfb' & Hcur').
    rewrite Hfb', Hcur'. auto.
  - apply Framing_established.
  - split; [reflexivity |].
    unfold main_wiring. cbv zeta. destruct (outPort >? 0); split; reflexivity.
  - rewrite Hrun in Hfeed. injection Hfeed as <- <-. cbn [snd] in Hfb, Hcur. auto.
Qed.

(** * Further properties of the code *)

(** ** Command bytes and the enumeration *)

(** X1: the value of every enumerator is read back as that enumerator, and
    a byte is the value of the command it is read as exactly when it is
    101, 102, 105, 108 or 255. *)
Theorem toMspCommand_value_round_trip (c : MspCommand) (b : Z) :
  toMspCommand (MspCommand_value c) = c
  /\ (MspCommand_value (toMspCommand b) = b
      <-> b = 101 \/ b = 102 \/ b = 105 \/ b = 108 \/ b = 255).
Proof.
  split; [destruct c; reflexivity |].
  unfold toMspCommand.
  destruct (Z.eqb_spec b 101); [subst; cbn; intuition lia |].
  destruct (Z.eqb_spec b 108); [subst; cbn; intuition lia |].
  destruct (Z.eqb_spec b 105); [subst; cbn; intuition lia |].
  destruct (Z.eqb_spec b 102); [subst; cbn; intuition lia |].
  cbn. intuition lia.
Qed.

(** Closes [Forall P l] for a list [l] written out, [P] being decided by
    evaluation and linear arithmetic. *)
Ltac list_of_bytes :=
  repeat first
    [ apply List.Forall_nil
    | apply List.Forall_cons;
      [first [unfold is_byte; lia | intros Heq; vm_compute in Heq; discriminate] |] ].

(** ** Streams of frames *)

(** A stream made of frames, each after some bytes to skip. *)
Fixpoint stream_of (items : list (list Z * (Direction * Z * list Z))) : list Z :=
  match items with
  | [] => []
  | (skip, (d, c, pl)) :: rest => skip ++ wire_frame d c pl ++ stream_of rest
  end.

Definition well_formed_item (item : list Z * (Direction * Z * list Z)) : Prop :=
  let '(skip, (d, c, pl)) := item in
  Forall (fun b => to_uint8 b <> 36) skip
  /\ is_byte c /\ Forall is_byte pl /\ (length pl <= 255)%nat.

(** X2: a stream of well-formed frames, each preceded by any number of
    bytes none of which is the start marker, delivers the decoded frames,
    all of them, once each and in order, and leaves the parser reset. *)
Theorem frames_delivered_in_order
    (items : list (list Z * (Direction * Z * list Z))) :
  Forall well_formed_item items ->
  feed MspMessageParser_new (stream_of items) ([] : Recorder)
  = Some (reset, map (fun item => decoded (fst (fst (snd item)))
                                          (snd (fst (snd item)))
                                          (snd (snd item))) items).
Proof.
  intros Hall.
  enough (Hgen : forall seen : Recorder,
             feed reset (stream_of items) seen
             = Some (reset, seen ++ map (fun item => decoded (fst (fst (snd item)))
                                                             (snd (fst (snd item)))
                                                             (snd (snd item))) items))
    by (apply (Hgen [])).
  induction Hall as [| [skip [[d c] pl]] items (Hskip & Hc & Hpl & Hlen) _ IH]; intros seen.
  - cbn [stream_of map feed]. rewrite app_nil_r. reflexivity.
  - cbn [stream_of map fst snd].
    rewrite feed_app, (feed_markerless skip seen Hskip).
    rewrite feed_app, feed_wire_frame by assumption.
    rewrite IH. unfold onMspMessage, Recorder_handler.
    rewrite <- app_assoc. reflexivity.
Qed.

Lemma frames_delivered_in_order_witness :
  feed MspMessageParser_new
    (stream_of [([1; 2; 0x4D], (OUTBOUND, 101, [0; 0; 0; 0; 0; 0; 1]));
                ([], (INBOUND, 7, []));
                ([0xFF], (INBOUND, 108, [1; 2; 3; 4; 5; 6]))])
    ([] : Recorder)
  = Some (reset, map (fun item => decoded (fst (fst (snd item)))
                                          (snd (fst (snd item)))
                                          (snd (snd item)))
                   [([1; 2; 0x4D], (OUTBOUND, 101, [0; 0; 0; 0; 0; 0; 1]));
                    ([], (INBOUND, 7, []));
                    ([0xFF], (INBOUND, 108, [1; 2; 3; 4; 5; 6]))]).
Proof.
  apply (frames_delivered_in_order
           [([1; 2; 0x4D], (OUTBOUND, 101, [0; 0; 0; 0; 0; 0; 1]));
            ([], (INBOUND, 7, []));
            ([0xFF], (INBOUND, 108, [1; 2; 3; 4; 5; 6]))]).
  repeat first
    [ apply List.Forall_nil
    | apply List.Forall_cons;
      [unfold well_formed_item;
       split; [list_of_bytes | split; [unfold is_byte; lia | split; [list_of_bytes | cbn; lia]]] |] ].
Defined.

(** X3: a frame whose last byte is not the exclusive-or of its length,
    command and payload bytes is dropped: the handler is not called and
    the parser is reset. *)
Theorem bad_checksum_dropped
    {W : Type} `{!IMspMessageHandler W}
    (d : Direction) (c : Z) (pl : list Z) (last : Z) (w : W) :
  is_byte c -> Forall is_byte pl -> (length pl <= 255)%nat ->
  to_uint8 last <> xor_bytes (Z.lxor (Z.of_nat (length pl)) c) pl ->
  feed MspMessageParser_new
    (frame_header (Direction_marker d) (Z.of_nat (length pl)) c ++ pl ++ [last]) w
  = Some (reset, w).
Proof.
  intros Hc Hpl Hlen Hbad.
  assert (Hlenb : is_byte (Z.of_nat (length pl))) by (unfold is_byte; lia).
  unfold MspMessageParser_new.
  rewrite feed_app, feed_header by assumption.
  rewrite feed_app.
  assert (Hlast : forall k pay,
             feed (mkParser CHECKSUM
                     (mkMspMessage d (toMspCommand c) (Z.of_nat (length pl))
                        (xor_bytes (Z.lxor (Z.of_nat (length pl)) c) pl) pay) k)
                  [last] w
             = Some (reset, w)).
  { intros k pay. cbn [feed]. unfold processByte. cbn [m_state m_msg checksum].
    destruct (Z.eqb_spec (xor_bytes (Z.lxor (Z.of_nat (length pl)) c) pl) (to_uint8 last))
      as [Heq | _]; [exfalso; apply Hbad; symmetry; exact Heq | reflexivity]. }
  destruct pl as [| x pl'].
  - change (Z.of_nat (length []) =? 0) with true. cbv beta iota.
    cbn [feed]. apply (Hlast 0 (payload zero_msg)).
  - replace (Z.of_nat (length (x :: pl')) =? 0) with false
      by (symmetry; apply Z.eqb_neq; cbn [length]; lia).
    cbv beta iota.
    rewrite (feed_payload (x :: pl') 0); try assumption; try discriminate;
      try apply length_replicate; try lia.
    apply Hlast.
Qed.

Lemma bad_checksum_dropped_witness :
  feed MspMessageParser_new
    (frame_header (Direction_marker OUTBOUND) (Z.of_nat (length [0; 0; 0; 0; 0; 0; 1])) 101
     ++ [0; 0; 0; 0; 0; 0; 1] ++ [0x62])
    ([] : Recorder)
  = Some (reset, []).
Proof.
  apply (bad_checksum_dropped OUTBOUND 101 [0; 0; 0; 0; 0; 0; 1] 0x62 ([] : Recorder)).
  - unfold is_byte. lia.
  - list_of_bytes.
  - simpl. lia.
  - vm_compute. discriminate.
Defined.

(** ** What a delivered message holds *)

(** First payload cell that the frame in progress has not written. *)
Definition payload_bound (p : MspMessageParser) : nat :=
  match m_state p with
  | PAYLOAD => Z.to_nat (m_bufPtr p)
  | CHECKSUM => Z.to_nat (size (m_msg p))
  | _ => 0%nat
  end.

(** [Tidy p]: the payload array of [p] holds bytes, and zeros from
    [payload_bound p] on. *)
Definition Tidy (p : MspMessageParser) : Prop :=
  Forall is_byte (payload (m_msg p))
  /\ forall i : nat, (payload_bound p <= i < 256)%nat -> payload (m_msg p) !! i = Some 0.

(** A message as the parser hands it over: a full payload array of bytes,
    zero from the declared length on, with byte-sized length and checksum. *)
Definition WellFormed (m : MspMessage) : Prop :=
  length (payload m) = 256%nat
  /\ Forall is_byte (payload m)
  /\ is_byte (size m)
  /\ is_byte (checksum m)
  /\ forall i : nat, (Z.to_nat (size m) <= i < 256)%nat -> payload m !! i = Some 0.

Lemma zero_payload_Tidy (p : MspMessageParser) :
  payload (m_msg p) = payload zero_msg -> Tidy p.
Proof.
  intros Hz. unfold Tidy. rewrite Hz. cbn [payload zero_msg]. split.
  - apply Forall_replicate. unfold is_byte. lia.
  - intros i Hi. apply lookup_replicate_2. unfold MSP_MAX_PAYLOAD_SIZE. lia.
Qed.

Lemma Tidy_new : Tidy MspMessageParser_new.
Proof. apply zero_payload_Tidy. reflexivity. Qed.

Section TidySteps.
Context {W : Type} `{!IMspMessageHandler W}.

Lemma processByte_Tidy (cs : list Z) (p p' : MspMessageParser) (b : Z) (w w' : W) :
  Framing cs p -> Tidy p -> processByte p b w = Some (p', w') -> Tidy p'.
Proof.
  intros HF [Hbytes Hzero]. unfold processByte. cbv zeta.
  pose proof (to_uint8_is_byte b) as Hbyte.
  generalize dependent (to_uint8 b). intros byte Hbyte.
  destruct HF as [cs | pre | pre | pre d | pre d len Hlen
                  | pre d len c pay k Hlen Hc Hpay Hk
                  | pre d len c pay Hlen Hc Hpay];
    cbn [m_state m_msg m_bufPtr reset set_state];
    try (repeat case_match; intros [= <- <-]; apply zero_payload_Tidy; reflexivity).
  cbn [payload checksum size] in *. unfold is_byte in Hlen.
  unfold payload_store, MSP_MAX_PAYLOAD_SIZE.
  replace (0 <=? Z.of_nat k) with true by (symmetry; apply Z.leb_le; lia).
  replace (Z.of_nat k <? 256) with true by (symmetry; apply Z.ltb_lt; lia).
  cbn [andb mbind option_bind]. rewrite Nat2Z.id.
  replace (to_uint16 (Z.of_nat k + 1)) with (Z.of_nat (S k))
    by (unfold to_uint16; rewrite Z.mod_small by lia; lia).
  unfold set_checksum, set_payload. cbn [direction cmd size checksum payload].
  unfold payload_bound in Hzero. cbn [m_state m_bufPtr] in Hzero.
  rewrite Nat2Z.id in Hzero.
  destruct (Z.eqb_spec (Z.of_nat (S k)) len) as [Heq | Hne];
    intros [= <- <-]; unfold Tidy, payload_bound;
    cbn [m_state m_msg m_bufPtr payload size];
    (split; [apply Forall_insert; assumption |]);
    intros i Hi; rewrite list_lookup_insert_ne by lia; apply Hzero; lia.
Qed.

Lemma checksum_state_WellFormed (cs : list Z) (p : MspMessageParser) :
  Framing cs p -> Tidy p -> m_state p = CHECKSUM -> WellFormed (m_msg p).
Proof.
  intros HF [Hbytes Hzero] Hst.
  destruct (Framing_bounds _ _ HF) as (Hpay & Hsize & _).
  unfold payload_bound in Hzero. rewrite Hst in Hzero.
  destruct HF; try discriminate Hst. cbn [m_msg payload size checksum] in *.
  unfold WellFormed. cbn [payload size checksum].
  split; [exact Hpay |]. split; [exact Hbytes |]. split; [exact Hsize |].
  split; [| exact Hzero].
  apply xor_bytes_is_byte; [apply lxor_is_byte; assumption |].
  apply Forall_take. exact Hbytes.
Qed.

(** [feed] from a state that the parser can be in keeps any property [I]
    of the handler's state that the delivery of a well-formed message
    keeps. *)
Lemma feed_reach (I : W -> Prop) :
  (forall m w, WellFormed m -> I w -> I (onMspMessage m w)) ->
  forall bs cs p w,
    Framing cs p -> Tidy p -> I w ->
    exists p' w',
      feed p bs w = Some (p', w') /\
      Framing (cs ++ map to_uint8 bs) p' /\ Tidy p' /\ I w'.
Proof.
  intros Hdeliver.
  induction bs as [| b bs IH]; intros cs p w HF HT HI.
  - exists p, w. rewrite app_nil_r. auto.
  - destruct (processByte_framing cs p b w HF)
      as (p1 & w1 & Hstep & HF1 & Hdel & _).
    pose proof (processByte_Tidy _ _ _ _ _ _ HF HT Hstep) as HT1.
    assert (HI1 : I w1).
    { destruct Hdel as [(Hst & _ & -> & _) | (_ & ->)]; [| exact HI].
      apply Hdeliver; [| exact HI].
      eapply checksum_state_WellFormed; eassumption. }
    destruct (IH _ _ _ HF1 HT1 HI1) as (p' & w' & Hfeed & HF' & HT' & HI').
    exists p', w'. cbn [feed map]. rewrite Hstep.
    replace (cs ++ to_uint8 b :: map to_uint8 bs)
      with ((cs ++ [to_uint8 b]) ++ map to_uint8 bs)
      by (rewrite <- app_assoc; reflexivity).
    auto.
Qed.
End TidySteps.

(** X4: every message delivered out of a stream has a payload array of 256
    bytes that is zero from the declared length on, so nothing of an
    earlier frame is left in it, and its length and checksum are bytes. *)
Theorem delivered_messages_well_formed
    (bs : list Z) (p : MspMessageParser) (seen : Recorder) :
  feed MspMessageParser_new bs ([] : Recorder) = Some (p, seen) ->
  Forall (fun m =>
            length (payload m) = 256%nat
            /\ Forall is_byte (payload m)
            /\ is_byte (size m)
            /\ is_byte (checksum m)
            /\ forall i : nat,
                (Z.to_nat (size m) <= i < 256)%nat -> payload m !! i = Some 0)
         seen.
Proof.
  intros Hfeed.
  destruct (feed_reach (W := Recorder) (fun seen => Forall WellFormed seen))
    with (bs := bs) (cs := @nil Z) (p := MspMessageParser_new) (w := @nil MspMessage)
    as (p' & seen' & Hfeed' & _ & _ & Hall).
  - intros m w Hm Hall. unfold onMspMessage, Recorder_handler.
    apply Forall_app. split; [exact Hall | constructor; [exact Hm | constructor]].
  - apply Framing_established.
  - apply Tidy_new.
  - constructor.
  - rewrite Hfeed in Hfeed'. injection Hfeed' as <- <-. exact Hall.
Qed.

Lemma delivered_messages_well_formed_witness :
  Forall (fun m =>
            length (payload m) = 256%nat
            /\ Forall is_byte (payload m)
            /\ is_byte (size m)
            /\ is_byte (checksum m)
            /\ forall i : nat,
                (Z.to_nat (size m) <= i < 256)%nat -> payload m !! i = Some 0)
         [decoded INBOUND 108 [1; 2; 3; 4; 5; 6]; decoded OUTBOUND 7 [9]].
Proof.
  apply (delivered_messages_well_formed
           (wire_frame INBOUND 108 [1; 2; 3; 4; 5; 6] ++ wire_frame OUTBOUND 7 [9])
           reset
           [decoded INBOUND 108 [1; 2; 3; 4; 5; 6]; decoded OUTBOUND 7 [9]]).
  reflexivity.
Defined.

(** ** The dispatcher: commands do not interfere *)

(** X5: registering an executor for one command leaves the dispatch of
    messages of every other command as it was. *)
Theorem dispatch_other_command_unchanged
    (d : MspCommandDispatcher) (c : MspCommand) (x : IMspCommandExecutor)
    (msg : MspMessage) (e : Env) :
  cmd msg <> c ->
  dispatchMessage (registerExecutor c x d) msg e = dispatchMessage d msg e.
Proof.
  intros Hne. unfold dispatchMessage. rewrite lookup_registerExecutor.
  rewrite decide_False by congruence. reflexivity.
Qed.

Lemma dispatch_other_command_unchanged_witness :
  dispatchMessage (registerExecutor RC RcCommandConsoleExecutor MspCommandDispatcher_new)
    (decoded OUTBOUND 101 [0; 0; 0; 0; 0; 0; 1]) (mkEnv FlightDataModel_new [] [] 0)
  = dispatchMessage MspCommandDispatcher_new
      (decoded OUTBOUND 101 [0; 0; 0; 0; 0; 0; 1]) (mkEnv FlightDataModel_new [] [] 0).
Proof.
  apply (dispatch_other_command_unchanged MspCommandDispatcher_new RC
           RcCommandConsoleExecutor).
  vm_compute. discriminate.
Defined.

(** ** What executors leave alone *)

(** An executor that never changes the part [f] of the environment. *)
Definition preserves {A : Type} (f : Env -> A) (x : IMspCommandExecutor) : Prop :=
  forall msg e, f (execute x msg e) = f e.

Lemma run_executors_preserves {A : Type} (f : Env -> A)
    (xs : list IMspCommandExecutor) (msg : MspMessage) (e : Env) :
  Forall (preserves f) xs -> f (run_executors xs msg e) = f e.
Proof.
  intros Hall. revert e. induction Hall as [| x xs Hx _ IH]; intros e; [reflexivity |].
  cbn [run_executors fold_left]. fold (run_executors xs msg (execute x msg e)).
  rewrite IH. apply Hx.
Qed.

Lemma dispatchMessage_preserves {A : Type} (f : Env -> A)
    (d : MspCommandDispatcher) (msg : MspMessage) (e : Env) :
  (forall l e0, f (print l e0) = f e0) ->
  (forall xs, m_executors d !! cmd msg = Some xs -> Forall (preserves f) xs) ->
  f (dispatchMessage d msg e) = f e.
Proof.
  intros Hprint Hxs. unfold dispatchMessage.
  destruct (m_executors d !! cmd msg) as [xs |].
  - apply run_executors_preserves. apply Hxs. reflexivity.
  - destruct (verbose (flightModel e)); [apply Hprint | reflexivity].
Qed.

Ltac preserves_cases :=
  intros msg e; cbn [execute];
  repeat match goal with
         | |- context [if ?c then _ else _] => destruct c
         end;
  reflexivity.

Definition armed_of (e : Env) : bool := armed (flightModel e).

Lemma Attitude_preserves_armed : preserves armed_of AttitudeCommandExecutor.
Proof. unfold AttitudeCommandExecutor, armed_of. preserves_cases. Qed.

Lemma FcVariant_preserves_armed : preserves armed_of FcVariantCommandExecutor.
Proof. unfold FcVariantCommandExecutor, armed_of. preserves_cases. Qed.

Lemma RcConsole_preserves_armed : preserves armed_of RcCommandConsoleExecutor.
Proof. unfold RcCommandConsoleExecutor, armed_of. preserves_cases. Qed.

Lemma RcAlink_preserves_armed (outPort : Z) :
  preserves armed_of (RcCommandAlinkForwarder outPort).
Proof. unfold RcCommandAlinkForwarder, armed_of. preserves_cases. Qed.

Lemma Status_preserves_datagrams : preserves datagrams StatusCommandExecutor.
Proof. unfold StatusCommandExecutor. preserves_cases. Qed.

Lemma Attitude_preserves_datagrams : preserves datagrams AttitudeCommandExecutor.
Proof. unfold AttitudeCommandExecutor. preserves_cases. Qed.

Lemma FcVariant_preserves_datagrams : preserves datagrams FcVariantCommandExecutor.
Proof. unfold FcVariantCommandExecutor. preserves_cases. Qed.

Lemma RcConsole_preserves_datagrams : preserves datagrams RcCommandConsoleExecutor.
Proof. unfold RcCommandConsoleExecutor. preserves_cases. Qed.

#[local] Hint Resolve Attitude_preserves_armed FcVariant_preserves_armed
  RcConsole_preserves_armed RcAlink_preserves_armed
  Status_preserves_datagrams Attitude_preserves_datagrams
  FcVariant_preserves_datagrams RcConsole_preserves_datagrams : executors.

(** The executors that [main] has registered, by command. *)
Lemma main_wiring_executors (outPort now : Z) (c : MspCommand) :
  m_executors (m_dispatcher (fst (main_wiring outPort now))) !! c =
  match c with
  | STATUS => Some [StatusCommandExecutor]
  | ATTITUDE => Some [AttitudeCommandExecutor]
  | FC_VARIANT => Some [FcVariantCommandExecutor]
  | RC => if outPort >? 0
          then Some [RcCommandConsoleExecutor; RcCommandAlinkForwarder outPort]
          else Some [RcCommandConsoleExecutor]
  | UNKNOWN => None
  end.
Proof.
  unfold main_wiring. cbv zeta.
  destruct (outPort >? 0); cbn [fst m_dispatcher handler_register MspMessageHandler_new];
    unfold MspCommandDispatcher_new; rewrite !lookup_registerExecutor;
    cbn [m_executors]; rewrite !lookup_empty; destruct c; reflexivity.
Qed.

(** X6: with the executors that [main] registers, only a STATUS message
    can change the [armed] flag of the model. *)
Theorem armed_changed_by_status_only
    (outPort now : Z) (msg : MspMessage) (e : Env) :
  cmd msg <> STATUS ->
  armed (flightModel
           (dispatchMessage (m_dispatcher (fst (main_wiring outPort now))) msg e))
  = armed (flightModel e).
Proof.
  intros Hne.
  apply (dispatchMessage_preserves armed_of); [reflexivity |].
  intros xs. rewrite main_wiring_executors.
  destruct (cmd msg); try contradiction; try destruct (outPort >? 0);
    intros [= <-];
    repeat first [apply List.Forall_nil
                 | apply List.Forall_cons; [solve [auto with executors] |]].
Qed.

Lemma armed_changed_by_status_only_witness :
  armed (flightModel
           (dispatchMessage (m_dispatcher (fst (main_wiring 9999 0)))
              (decoded INBOUND 108 [1; 2; 3; 4; 5; 6])
              (mkEnv (set_armed true FlightDataModel_new) [] [] 0)))
  = armed (flightModel (mkEnv (set_armed true FlightDataModel_new) [] [] 0)).
Proof.
  apply (armed_changed_by_status_only 9999 0 (decoded INBOUND 108 [1; 2; 3; 4; 5; 6])).
  vm_compute. discriminate.
Defined.

(** ** Datagrams *)

Lemma onMspMessage_env (msg : MspMessage) (h : MspMessageHandler) (e : Env) :
  exists out,
    onMspMessage msg (h, e)
    = (mkHandler
         (fst (copyToFrameBuffer (MspMessage_bytes msg) (m_dataModel h)
                 (if verbose (m_dataModel h)
                  then console e ++ [ReceivedMspMsg (MspCommand_value (cmd msg)) (size msg)]
                  else console e)))
         (m_dispatcher h),
       dispatchMessage (m_dispatcher h) msg (set_console out e)).
Proof.
  unfold onMspMessage, MspMessageHandler_handler, MspMessageHandler_onMspMessage.
  destruct (verbose (m_dataModel h));
    unfold print, set_console; cbn [console flightModel datagrams clock];
    match goal with
    | |- context [copyToFrameBuffer ?a ?b ?c] =>
        destruct (copyToFrameBuffer a b c) as [copy out] eqn:Hcopy
    end; exists out; reflexivity.
Qed.

(** X7: when [main] was given no outbound port, the run does not fault
    and no datagram is sent, whatever the input. *)
Theorem no_port_no_datagram (outPort now : Z) (bs : list Z) :
  outPort <= 0 ->
  exists p h e,
    main_run outPort now bs = Some (p, (h, e)) /\ datagrams e = [].
Proof.
  intros Hport. unfold main_run.
  set (D := m_dispatcher (fst (main_wiring outPort now))).
  destruct (feed_framing
              (fun _ (w : MspMessageHandler * Env) =>
                 m_dispatcher (fst w) = D /\ datagrams (snd w) = []))
    with (bs := bs) (cs := @nil Z) (p := MspMessageParser_new)
         (w := main_wiring outPort now)
    as (p' & [h' e'] & Hfeed & _ & _ & Hnone).
  - auto.
  - intros _ msg [h0 e0] (HD & Hnone) _. cbn [fst snd] in HD, Hnone.
    destruct (onMspMessage_env msg h0 e0) as [out ->]. cbn [fst snd m_dispatcher].
    split; [exact HD |]. rewrite HD.
    rewrite (dispatchMessage_preserves datagrams); [exact Hnone | reflexivity |].
    intros xs. subst D. rewrite main_wiring_executors.
    replace (outPort >? 0) with false by (symmetry; rewrite Z.gtb_ltb; apply Z.ltb_ge; lia).
    destruct (cmd msg); intros [= <-];
      repeat first [apply List.Forall_nil
                   | apply List.Forall_cons; [solve [auto with executors] |]].
  - apply Framing_established.
  - split; [reflexivity |].
    unfold main_wiring. cbv zeta. destruct (outPort >? 0); reflexivity.
  - exists p', h', e'. split; [exact Hfeed | exact Hnone].
Qed.

Lemma no_port_no_datagram_witness :
  exists p h e,
    main_run 0 5 (wire_frame INBOUND 105 (map Z.of_nat (seq 0 32))) = Some (p, (h, e))
    /\ datagrams e = [].
Proof.
  apply (no_port_no_datagram 0 5 (wire_frame INBOUND 105 (map Z.of_nat (seq 0 32)))).
  lia.
Defined.

Lemma land_31_range (z : Z) : 0 <= Z.land z 31 <= 31.
Proof.
  change 31 with (Z.ones 5) at 1 2. rewrite Z.land_ones by lia.
  pose proof (Z.mod_pos_bound z (2 ^ 5) ltac:(lia)). change (2 ^ 5) with 32 in *. lia.
Qed.

Lemma uint16_at_cells (msg : MspMessage) (k : nat) :
  uint16_at msg (Z.of_nat k)
  = nth k (payload msg) 0 + 256 * nth (S k) (payload msg) 0.
Proof.
  unfold uint16_at, payload_at. rewrite !nth_lookup.
  replace (Z.to_nat (Z.of_nat k + 1)) with (S k) by lia.
  rewrite Nat2Z.id. reflexivity.
Qed.

(** The ports [main] lets through are sent to as they are. *)
Lemma main_outPort_kept (argv3 : option Z) (outPort : Z) :
  main_outPort argv3 = Some outPort ->
  0 <= outPort <= 65535 /\ to_uint16 outPort = outPort.
Proof.
  unfold main_outPort, to_uint16. destruct argv3 as [v |].
  - destruct (Z.leb_spec v 0); [discriminate |].
    destruct (Z.gtb_spec v 65535); [discriminate |].
    cbn [orb]. intros [= <-]. split; [lia | apply Z.mod_small; lia].
  - intros [= <-]. split; [lia | reflexivity].
Qed.

(** X8: with an outbound port that [main] accepts (1..65535), an RC
    message of at least 32 payload bytes makes the chain send one datagram
    to that port, built from the payload cells that the first executor of
    the chain has just stored as channels: the clock; twice the 16-bit
    value in cells 16 and 17 (channel 8); bits 5 to 9 of the value in
    cells 22 and 23 (channel 11); the low five bits of the value in cells
    20 and 21 (channel 10); and 20 four times. Both bit fields are at most
    31. *)
Theorem rc_chain_forwards_link_quality
    (outPort now : Z) (msg : MspMessage) (e : Env) :
  0 < outPort <= 65535 -> cmd msg = RC -> size msg >= 32 ->
  let e' := dispatchMessage (m_dispatcher (fst (main_wiring outPort now))) msg e in
  let cell i := nth i (payload msg) 0 in
  let link_quality := cell 16%nat + 256 * cell 17%nat in
  let lost := Z.land (cell 20%nat + 256 * cell 21%nat) 31 in
  let recovered := Z.land (Z.shiftr (cell 22%nat + 256 * cell 23%nat) 5) 31 in
  datagrams e'
  = datagrams e
    ++ [mkDatagram outPort
          [clock e; link_quality; link_quality; recovered; lost; 20; 20; 20; 20]]
  /\ 0 <= lost <= 31 /\ 0 <= recovered <= 31.
Proof.
  intros Hport Hcmd Hsize. cbv zeta.
  split; [| split; apply land_31_range].
  unfold dispatchMessage. rewrite Hcmd, main_wiring_executors.
  replace (outPort >? 0) with true by (symmetry; apply Z.gtb_lt; lia).
  cbn [run_executors fold_left execute RcCommandConsoleExecutor RcCommandAlinkForwarder].
  replace (size msg >=? 16 * 2) with true by (symmetry; apply Z.geb_le; lia).
  replace (to_uint16 outPort) with outPort
    by (unfold to_uint16; symmetry; apply Z.mod_small; lia).
  cbn [flightModel set_flightModel set_channels channels verbose].
  rewrite <- (uint16_at_cells msg 16), <- (uint16_at_cells msg 20),
    <- (uint16_at_cells msg 22).
  destruct (verbose (flightModel e)); reflexivity.
Qed.

Lemma rc_chain_forwards_link_quality_witness :
  let msg := decoded INBOUND 105 (map Z.of_nat (seq 0 32)) in
  let e := mkEnv FlightDataModel_new [] [] 5 in
  let e' := dispatchMessage (m_dispatcher (fst (main_wiring 9999 0))) msg e in
  let cell i := nth i (payload msg) 0 in
  let link_quality := cell 16%nat + 256 * cell 17%nat in
  let lost := Z.land (cell 20%nat + 256 * cell 21%nat) 31 in
  let recovered := Z.land (Z.shiftr (cell 22%nat + 256 * cell 23%nat) 5) 31 in
  datagrams e'
  = datagrams e
    ++ [mkDatagram 9999
          [clock e; link_quality; link_quality; recovered; lost; 20; 20; 20; 20]]
  /\ 0 <= lost <= 31 /\ 0 <= recovered <= 31.
Proof.
  apply (rc_chain_forwards_link_quality 9999 0
           (decoded INBOUND 105 (map Z.of_nat (seq 0 32)))
           (mkEnv FlightDataModel_new [] [] 5)).
  - lia.
  - reflexivity.
  - vm_compute. discriminate.
Defined.

(** The same message, with the values written out: channel 8 is
    [16 + 256 * 17], channel 10 is [20 + 256 * 21], channel 11 is
    [22 + 256 * 23]. *)
Example rc_chain_datagram_values :
  datagrams
    (dispatchMessage (m_dispatcher (fst (main_wiring 9999 0)))
       (decoded INBOUND 105 (map Z.of_nat (seq 0 32)))
       (mkEnv FlightDataModel_new [] [] 5))
  = [mkDatagram 9999 [5; 4368; 4368; 24; 20; 20; 20; 20; 20]].
Proof. vm_compute. reflexivity. Qed.

(** A forwarder built for a port that does not fit 16 bits sends to the
    port cut to 16 bits. *)
Example forwarder_port_cut_to_16_bits :
  datagrams
    (execute (RcCommandAlinkForwarder 70000)
       (decoded INBOUND 105 (map Z.of_nat (seq 0 32)))
       (mkEnv FlightDataModel_new [] [] 5))
  = [mkDatagram 4464 [5; 0; 0; 0; 0; 20; 20; 20; 20]].
Proof. vm_compute. reflexivity. Qed.

(** ** The RC, FC_VARIANT and ATTITUDE executors *)

(** X9: the RC console executor keeps the 18 channels 18; cells 16 and 17
    of the channel array are never written; with at least 32 payload bytes
    cell [i] below 16 becomes the 16-bit value whose low byte is payload
    cell [2 i] and whose high byte is payload cell [2 i + 1], and with
    fewer the model is left as it is. *)
Theorem rc_console_channels (msg : MspMessage) (e : Env) :
  length (channels (flightModel e)) = Z.to_nat CHANNEL_COUNT ->
  let cs := channels (flightModel e) in
  let d' := flightModel (execute RcCommandConsoleExecutor msg e) in
  length (channels d') = Z.to_nat CHANNEL_COUNT
  /\ nth 16 (channels d') 0 = nth 16 cs 0
  /\ nth 17 (channels d') 0 = nth 17 cs 0
  /\ (size msg >= 32 ->
      forall i : nat, (i < 16)%nat ->
        nth i (channels d') 0
        = nth (2 * i) (payload msg) 0 + 256 * nth (2 * i + 1) (payload msg) 0)
  /\ (size msg < 32 -> d' = flightModel e).
Proof.
  intros Hlen. cbv zeta. cbn [execute RcCommandConsoleExecutor].
  change (Z.to_nat CHANNEL_COUNT) with 18%nat in *.
  destruct (Z.geb_spec (size msg) (16 * 2)) as [Hge | Hlt].
  - assert (Hmodel : forall (b : bool) d e0 l,
               flightModel (if b then print l (set_flightModel d e0) else set_flightModel d e0)
               = d)
      by (intros [] ? ? ?; reflexivity).
    rewrite Hmodel. cbn [channels set_channels].
    set (first16 := map (fun i => uint16_at msg (2 * Z.of_nat i)) (seq 0 16)).
    assert (Hf : length first16 = 16%nat) by reflexivity.
    rewrite !nth_lookup.
    split; [rewrite length_app, length_drop, Hf, Hlen; reflexivity |].
    split; [rewrite lookup_app_r by (rewrite Hf; lia); rewrite Hf, lookup_drop; reflexivity |].
    split; [rewrite lookup_app_r by (rewrite Hf; lia); rewrite Hf, lookup_drop; reflexivity |].
    split; [| lia].
    intros _ i Hi. rewrite !nth_lookup.
    rewrite lookup_app_l by (rewrite Hf; exact Hi).
    subst first16.
    do 16 (destruct i as [| i]; [reflexivity |]). lia.
  - repeat split; try reflexivity; lia.
Qed.

Lemma rc_console_channels_witness :
  let msg := decoded INBOUND 105 (map Z.of_nat (seq 0 32)) in
  let e := mkEnv FlightDataModel_new [] [] 0 in
  size msg >= 32
  /\ nth 3 (channels (flightModel e)) 0 = 0
  /\ nth 3 (channels (flightModel (execute RcCommandConsoleExecutor msg e))) 0
     = 6 + 256 * 7.
Proof.
  cbv zeta. split; [vm_compute; discriminate |]. split; [reflexivity |].
  destruct (rc_console_channels (decoded INBOUND 105 (map Z.of_nat (seq 0 32)))
              (mkEnv FlightDataModel_new [] [] 0) eq_refl)
    as (_ & _ & _ & Hstored & _).
  rewrite (Hstored ltac:(vm_compute; discriminate) 3%nat ltac:(lia)).
  reflexivity.
Defined.

Lemma strncmp_after_copy (n : nat) (pl : list Z) :
  strncmp_differs n (take n pl ++ [0]) pl = false.
Proof.
  revert pl. induction n as [| n IH]; intros pl; [reflexivity |].
  destruct pl as [| x pl]; [reflexivity |].
  cbn [strncmp_differs take app hd tl]. rewrite Z.eqb_refl.
  destruct (x =? 0); [reflexivity | apply IH].
Qed.

(** X10: the FC_VARIANT executor is idempotent: run again on the same
    message it changes nothing and prints nothing; and whenever it has
    run on a message of at least 4 bytes, the stored identifier compares
    equal to the payload under [strncmp(.., .., 4)]. *)
Theorem fc_variant_idempotent (msg : MspMessage) (e : Env) :
  execute FcVariantCommandExecutor msg (execute FcVariantCommandExecutor msg e)
  = execute FcVariantCommandExecutor msg e
  /\ ((size msg >=? 4) = true ->
      strncmp_differs 4
        (fcIdentifier (flightModel (execute FcVariantCommandExecutor msg e)))
        (payload msg) = false).
Proof.
  cbn [execute FcVariantCommandExecutor]. cbv zeta.
  destruct (size msg >=? 4) eqn:Hsz; [| split; [reflexivity | discriminate]].
  destruct (strncmp_differs 4 (fcIdentifier (flightModel e)) (payload msg)) eqn:Hdiff.
  - assert (Hmodel : forall (b : bool) d e0 l,
               flightModel (if b then print l (set_flightModel d e0) else set_flightModel d e0)
               = d)
      by (intros [] ? ? ?; reflexivity).
    rewrite !Hmodel. cbn [fcIdentifier set_fcIdentifier].
    rewrite strncmp_after_copy. split; reflexivity.
  - rewrite Hdiff. split; [reflexivity | intros _; reflexivity].
Qed.

(** A payload whose first byte is NUL compares equal to the empty
    identifier of a fresh model, so it is not stored. *)
Example fc_variant_nul_prefix_ignored :
  execute FcVariantCommandExecutor (decoded INBOUND 102 [0; 66; 84; 70])
    (mkEnv FlightDataModel_new [] [] 0)
  = mkEnv FlightDataModel_new [] [] 0.
Proof. reflexivity. Qed.

Lemma int16_of_bytes (v : Z) :
  -32768 <= v < 32768 ->
  to_int16 (v mod 256 + 256 * ((v / 256) mod 256)) = v.
Proof.
  intros Hv. rewrite <- (Z.rem_mul_r v 256 256) by lia.
  unfold to_int16. change (256 * 256) with 65536.
  rewrite Z.mod_mod by lia. cbv zeta.
  destruct (Z_lt_le_dec v 0) as [Hneg | Hpos].
  - replace (v mod 65536) with (v + 65536)
      by (apply (Z.mod_unique_pos v 65536 (-1)); lia).
    destruct (Z.ltb_spec (v + 65536) 32768); lia.
  - rewrite Z.mod_small by lia. destruct (Z.ltb_spec v 32768); lia.
Qed.

(** X11: an ATTITUDE frame carrying three 16-bit values in two's
    complement, low byte first, read by the program as wired in [main]
    stores exactly these values as roll, pitch and heading, changes
    nothing else in the model, prints the receipt and the attitude line,
    and sends nothing. *)
Theorem attitude_frame_round_trip (outPort now : Z) (d : Direction) (r pt hd : Z) :
  -32768 <= r < 32768 -> -32768 <= pt < 32768 -> -32768 <= hd < 32768 ->
  exists h,
    main_run outPort now
      (wire_frame d 108
         [r mod 256; (r / 256) mod 256;
          pt mod 256; (pt / 256) mod 256;
          hd mod 256; (hd / 256) mod 256])
    = Some (reset,
            (h, mkEnv (set_attitude r pt hd (set_verbose true FlightDataModel_new))
                  [ReceivedMspMsg 108 6; AttitudeLine pt r hd] [] now)).
Proof.
  intros Hr Hp Hh.
  assert (Hbytes : forall v, is_byte (v mod 256) /\ is_byte ((v / 256) mod 256))
    by (intros v; split; apply Z.mod_pos_bound; lia).
  unfold main_run, MspMessageParser_new.
  rewrite feed_wire_frame;
    [| unfold is_byte; lia
     | repeat (apply List.Forall_cons; [apply Hbytes |]); apply List.Forall_nil
     | cbn; lia].
  destruct (main_wiring outPort now) as [h0 e0] eqn:Hw.
  assert (Hh0 : m_dataModel h0 = set_verbose true FlightDataModel_new
                /\ m_dispatcher h0 = m_dispatcher (fst (main_wiring outPort now))
                /\ e0 = mkEnv (set_verbose true FlightDataModel_new) [] [] now).
  { rewrite Hw. unfold main_wiring in Hw. cbv zeta in Hw.
    destruct (outPort >? 0); injection Hw as <- <-; repeat split. }
  destruct Hh0 as (Hcopy & Hdisp & ->).
  unfold onMspMessage, MspMessageHandler_handler, MspMessageHandler_onMspMessage.
  rewrite Hcopy, Hdisp.
  eexists. f_equal. f_equal.
  cbn [verbose set_verbose FlightDataModel_new].
  match goal with
  | |- context [copyToFrameBuffer ?a ?b ?c] => destruct (copyToFrameBuffer a b c) as [copy o] eqn:Hc
  end.
  unfold copyToFrameBuffer, flushFrameBuffer in Hc.
  cbn [fbCursor set_verbose FlightDataModel_new verbose] in Hc.
  replace (0 + Z.of_nat
                 (length (MspMessage_bytes
                            (decoded d 108
                               [r mod 256; (r / 256) mod 256; pt mod 256;
                                (pt / 256) mod 256; hd mod 256; (hd / 256) mod 256])))
           >? FRAME_BUFFER_SIZE) with false in Hc by reflexivity.
  injection Hc as <- <-.
  f_equal.
  unfold dispatchMessage.
  change (cmd (decoded d 108 _)) with ATTITUDE.
  rewrite main_wiring_executors.
  cbn [run_executors fold_left execute AttitudeCommandExecutor].
  change (size (decoded d 108 _)) with 6.
  change (6 >=? 6) with true. cbv beta iota.
  set (m := decoded d 108 _).
  assert (H0 : uint16_at m 0 = r mod 256 + 256 * ((r / 256) mod 256)) by reflexivity.
  assert (H2 : uint16_at m 2 = pt mod 256 + 256 * ((pt / 256) mod 256)) by reflexivity.
  assert (H4 : uint16_at m 4 = hd mod 256 + 256 * ((hd / 256) mod 256)) by reflexivity.
  rewrite H0, H2, H4, !int16_of_bytes by assumption.
  reflexivity.
Qed.

Lemma attitude_frame_round_trip_witness :
  exists h,
    main_run 0 7
      (wire_frame INBOUND 108
         [(-2) mod 256; ((-2) / 256) mod 256;
          300 mod 256; (300 / 256) mod 256;
          32767 mod 256; (32767 / 256) mod 256])
    = Some (reset,
            (h, mkEnv (set_attitude (-2) 300 32767 (set_verbose true FlightDataModel_new))
                  [ReceivedMspMsg 108 6; AttitudeLine 300 (-2) 32767] [] 7)).
Proof.
  apply (attitude_frame_round_trip 0 7 INBOUND (-2) 300 32767); lia.
Defined.

(** ** The staging buffer *)

Lemma memcpy_at_length (dst : list Z) (off : Z) (data : list Z) :
  (Z.to_nat off + length data <= length dst)%nat ->
  length (memcpy_at dst off data) = length dst.
Proof.
  intros Hfit. unfold memcpy_at.
  rewrite !length_app, length_take, length_drop. lia.
Qed.

Lemma memcpy_at_length_eq (dst : list Z) (off : Z) (n : nat) (data : list Z) :
  length dst = n -> (Z.to_nat off + length data <= n)%nat ->
  length (memcpy_at dst off data) = n.
Proof. intros <- Hfit. apply memcpy_at_length. exact Hfit. Qed.

Lemma memcpy_at_data (dst : list Z) (off : Z) (data : list Z) :
  (Z.to_nat off <= length dst)%nat ->
  take (length data) (drop (Z.to_nat off) (memcpy_at dst off data)) = data.
Proof.
  intros Hoff. unfold memcpy_at.
  rewrite drop_app_length' by (rewrite length_take; lia).
  apply take_app_length.
Qed.

Lemma memcpy_at_before (dst : list Z) (off : Z) (data : list Z) :
  (Z.to_nat off <= length dst)%nat ->
  take (Z.to_nat off) (memcpy_at dst off data) = take (Z.to_nat off) dst.
Proof.
  intros Hoff. unfold memcpy_at.
  apply take_app_length'. rewrite length_take. lia.
Qed.

(** X12: [copyToFrameBuffer] of data that fits the buffer stays inside it.
    The write starts at the cursor, or at 0 after a flush when the data
    would pass the end; the buffer keeps its 1024 cells, the data is found
    at the start of the write, the cells before it keep their content (a
    flush clears nothing), the cursor ends just after the data, and the
    flush is reported, with the old cursor, exactly when it happens on a
    verbose model. *)
Theorem copyToFrameBuffer_in_bounds
    (data : list Z) (d : FlightDataModel) (out : list LogLine) :
  length (frameBuffer d) = Z.to_nat FRAME_BUFFER_SIZE ->
  0 <= fbCursor d <= FRAME_BUFFER_SIZE ->
  Z.of_nat (length data) <= FRAME_BUFFER_SIZE ->
  let sz := Z.of_nat (length data) in
  let flushed := fbCursor d + sz >? FRAME_BUFFER_SIZE in
  let start := if flushed then 0 else fbCursor d in
  let d' := fst (copyToFrameBuffer data d out) in
  length (frameBuffer d') = Z.to_nat FRAME_BUFFER_SIZE
  /\ fbCursor d' = start + sz
  /\ fbCursor d' <= FRAME_BUFFER_SIZE
  /\ take (length data) (drop (Z.to_nat start) (frameBuffer d')) = data
  /\ take (Z.to_nat start) (frameBuffer d') = take (Z.to_nat start) (frameBuffer d)
  /\ snd (copyToFrameBuffer data d out)
     = if flushed && verbose d then out ++ [FlushingFrameBuffer (fbCursor d)] else out.
Proof.
  unfold FRAME_BUFFER_SIZE. change (Z.to_nat 1024) with 1024%nat.
  intros Hlen Hcur Hdata. cbv zeta.
  unfold copyToFrameBuffer, flushFrameBuffer, FRAME_BUFFER_SIZE.
  destruct (Z.gtb_spec (fbCursor d + Z.of_nat (length data)) 1024) as [Hover | Hfit];
    cbn [fst snd fbCursor frameBuffer set_fbCursor set_frameBuffer andb Z.to_nat].
  - rewrite memcpy_at_length, memcpy_at_data, memcpy_at_before by lia.
    repeat split; try reflexivity; try lia.
  - rewrite memcpy_at_length, memcpy_at_data, memcpy_at_before by lia.
    repeat split; try reflexivity; try lia.
Qed.

Lemma copyToFrameBuffer_in_bounds_witness :
  let data := replicate 260 7 in
  let d := set_fbCursor 780 FlightDataModel_new in
  let out := @nil LogLine in
  let sz := Z.of_nat (length data) in
  let flushed := fbCursor d + sz >? FRAME_BUFFER_SIZE in
  let start := if flushed then 0 else fbCursor d in
  let d' := fst (copyToFrameBuffer data d out) in
  length (frameBuffer d') = Z.to_nat FRAME_BUFFER_SIZE
  /\ fbCursor d' = start + sz
  /\ fbCursor d' <= FRAME_BUFFER_SIZE
  /\ take (length data) (drop (Z.to_nat start) (frameBuffer d')) = data
  /\ take (Z.to_nat start) (frameBuffer d') = take (Z.to_nat start) (frameBuffer d)
  /\ snd (copyToFrameBuffer data d out)
     = if flushed && verbose d then out ++ [FlushingFrameBuffer (fbCursor d)] else out.
Proof.
  apply (copyToFrameBuffer_in_bounds (replicate 260 7)
           (set_fbCursor 780 FlightDataModel_new) []).
  - reflexivity.
  - cbn. unfold FRAME_BUFFER_SIZE. lia.
  - vm_compute. discriminate.
Defined.

Lemma WellFormed_bytes_length (m : MspMessage) :
  WellFormed m -> length (MspMessage_bytes m) = 260%nat.
Proof.
  intros (Hpay & _). unfold MspMessage_bytes. rewrite length_app, Hpay. reflexivity.
Qed.

(** X13: over any input, the copy of the model that the handler of [main]
    keeps has a staging buffer of 1024 cells and a cursor that is 0, 260,
    520 or 780: each message takes [sizeof(MspMessage)] = 260 bytes, the
    fourth one in a row does not fit and goes to the start, so the copy
    never passes the end of the buffer. *)
Theorem handler_buffer_cursor_cycle (outPort now : Z) (bs : list Z) :
  exists p h e,
    main_run outPort now bs = Some (p, (h, e))
    /\ length (frameBuffer (m_dataModel h)) = Z.to_nat FRAME_BUFFER_SIZE
    /\ (fbCursor (m_dataModel h) = 0 \/ fbCursor (m_dataModel h) = 260
        \/ fbCursor (m_dataModel h) = 520 \/ fbCursor (m_dataModel h) = 780).
Proof.
  unfold main_run.
  destruct (feed_reach
              (fun w : MspMessageHandler * Env =>
                 length (frameBuffer (m_dataModel (fst w))) = 1024%nat
                 /\ (fbCursor (m_dataModel (fst w)) = 0
                     \/ fbCursor (m_dataModel (fst w)) = 260
                     \/ fbCursor (m_dataModel (fst w)) = 520
                     \/ fbCursor (m_dataModel (fst w)) = 780)))
    with (bs := bs) (cs := @nil Z) (p := MspMessageParser_new)
         (w := main_wiring outPort now)
    as (p' & [h' e'] & Hfeed & _ & _ & Hinv).
  - intros m [h0 e0] Hm (Hlen & Hcur). cbn [fst] in Hlen, Hcur.
    destruct (onMspMessage_env m h0 e0) as [out ->]. cbn [fst m_dataModel].
    pose proof (WellFormed_bytes_length m Hm) as Hbytes.
    unfold copyToFrameBuffer, flushFrameBuffer, FRAME_BUFFER_SIZE.
    rewrite Hbytes. change (Z.of_nat 260) with 260.
    destruct Hcur as [Hc | [Hc | [Hc | Hc]]]; rewrite Hc;
      match goal with
      | |- context [?a + 260 >? 1024] =>
          let b := eval vm_compute in (a + 260 >? 1024) in
          change (a + 260 >? 1024) with b
      end;
      cbn [fst fbCursor frameBuffer set_fbCursor set_frameBuffer]; rewrite ?Hc;
      (split; [apply memcpy_at_length_eq; [exact Hlen | rewrite Hbytes; lia] | lia]).
  - apply Framing_established.
  - apply Tidy_new.
  - unfold main_wiring. cbv zeta. destruct (outPort >? 0); split; try reflexivity; left; reflexivity.
  - exists p', h', e'. split; [exact Hfeed | exact Hinv].
Qed.
(** ** The read loop *)

Definition exited {Src W : Type} (r : LoopResult Src W) : bool :=
  match r with
  | Exited _ _ => true
  | _ => false
  end.

(** X14: when the input is not a file the loop has no way out: whatever
    the source returns, end of data and errors included, it reads again. *)
Theorem read_loop_leaves_only_on_file
    {Src W : Type} `{!IInputSource Src} `{!IMspMessageHandler W}
    (fuel : nat) (src : Src) (p : MspMessageParser) (w : W) :
  exited (read_loop fuel false src p w) = false.
Proof.
  revert src p w. induction fuel as [| fuel IH]; intros src p w; [reflexivity |].
  cbn [read_loop]. destruct (receiveData src BUFFER_SIZE) as [[n buffer] src'].
  destruct (n >? 0).
  - destruct (feed p (take (Z.to_nat n) buffer) w) as [[p' w'] |]; [apply IH | reflexivity].
  - rewrite andb_false_r. apply IH.
Qed.

Section FileLoop.
Context {W : Type} `{!IMspMessageHandler W}.

Lemma read_loop_S {Src : Type} `{!IInputSource Src}
    (fuel : nat) (is_file : bool) (src : Src) (p : MspMessageParser) (w : W) :
  read_loop (S fuel) is_file src p w =
  let '(bytesRead, buffer, src') := receiveData src BUFFER_SIZE in
  if bytesRead >? 0 then
    match feed p (take (Z.to_nat bytesRead) buffer) w with
    | Some (p', w') => read_loop fuel is_file src' p' w'
    | None => Faulted
    end
  else if (bytesRead =? -1) && is_file then Exited p w
  else read_loop fuel is_file src' p w.
Proof. reflexivity. Qed.

Lemma receiveData_good (content : list Z) :
  receiveData (mkFile content true) BUFFER_SIZE =
  (Z.of_nat (length (take 1024 content)), take 1024 content,
   mkFile (drop 1024 content) (Z.of_nat (length (take 1024 content)) =? 1024)).
Proof. reflexivity. Qed.

Lemma read_loop_file_failed (fuel : nat) (rest : list Z) (p : MspMessageParser) (w : W) :
  read_loop (S fuel) true (mkFile rest false) p w = Exited p w.
Proof. reflexivity. Qed.

Lemma read_loop_file (n : nat) :
  forall (content cs : list Z) (p : MspMessageParser) (w : W),
    (length content < (n + 1) * 1024)%nat ->
    Framing cs p ->
    exists p' w',
      feed p content w = Some (p', w')
      /\ forall extra,
          read_loop (n + 2 + extra) true (mkFile content true) p w = Exited p' w'.
Proof.
  induction n as [| n IH]; intros content cs p w Hlen HF.
  - destruct (feed_framing (fun _ _ => True) ltac:(auto) ltac:(auto)
                content cs p w HF I) as (p' & w' & Hfeed & _ & _).
    exists p', w'. split; [exact Hfeed |]. intros extra.
    change (0 + 2 + extra)%nat with (S (S extra)).
    rewrite read_loop_S, receiveData_good.
    rewrite take_ge, drop_ge by lia.
    replace (Z.of_nat (length content) =? 1024) with false
      by (symmetry; apply Z.eqb_neq; lia).
    destruct content as [| x content].
    + cbn [feed] in Hfeed. injection Hfeed as <- <-.
      change (Z.of_nat (length (@nil Z)) >? 0) with false.
      change ((Z.of_nat (length (@nil Z)) =? -1) && true) with false.
      apply read_loop_file_failed.
    + replace (Z.of_nat (length (x :: content)) >? 0) with true
        by (symmetry; apply Z.gtb_lt; cbn [length]; lia).
      rewrite Nat2Z.id, take_ge by lia. rewrite Hfeed.
      apply read_loop_file_failed.
  - destruct (Nat.lt_ge_cases (length content) ((n + 1) * 1024)) as [Hsmall | Hbig].
    + destruct (IH content cs p w Hsmall HF) as (p' & w' & Hfeed & Hloop).
      exists p', w'. split; [exact Hfeed |]. intros extra.
      replace (S n + 2 + extra)%nat with (n + 2 + S extra)%nat by lia. apply Hloop.
    + destruct (feed_framing (fun _ _ => True) ltac:(auto) ltac:(auto)
                  (take 1024 content) cs p w HF I) as (p1 & w1 & Hfeed1 & HF1 & _).
      assert (Hrest : (length (drop 1024 content) < (n + 1) * 1024)%nat)
        by (rewrite length_drop; lia).
      destruct (IH (drop 1024 content) _ p1 w1 Hrest HF1) as (p' & w' & Hfeed & Hloop).
      exists p', w'. split.
      * rewrite <- (take_drop 1024 content), feed_app, Hfeed1. exact Hfeed.
      * intros extra. change (S n + 2 + extra)%nat with (S (n + 2 + extra)).
        rewrite read_loop_S, receiveData_good.
        assert (Htake : length (take 1024 content) = 1024%nat)
          by (rewrite length_take; lia).
        rewrite Htake. change (Z.of_nat 1024 >? 0) with true.
        change (Z.of_nat 1024 =? 1024) with true.
        change (Z.to_nat (Z.of_nat 1024)) with 1024%nat.
        rewrite take_take, Nat.min_id, Hfeed1. apply Hloop.
Qed.
End FileLoop.

(** X15: on a file the read loop feeds the parser every byte of the file,
    in order, whatever the chunks of 1024 bytes it is read in, and then
    leaves: the outcome is that of feeding the content at once, as soon as
    the iterations allowed are one per full chunk and two more. *)
Theorem read_loop_feeds_whole_file
    {W : Type} `{!IMspMessageHandler W} (content : list Z) (w : W) :
  exists p' w',
    feed MspMessageParser_new content w = Some (p', w')
    /\ forall extra,
        read_loop (length content / 1024 + 2 + extra) true
          (FileInputSource_new content) MspMessageParser_new w
        = Exited p' w'.
Proof.
  apply (read_loop_file (length content / 1024) content [] MspMessageParser_new w).
  - pose proof (Nat.div_mod_eq (length content) 1024) as Hdiv.
    pose proof (Nat.mod_upper_bound (length content) 1024 ltac:(lia)) as Hmod.
    lia.
  - apply Framing_established.
Qed.

(** A file of 2050 bytes holding a frame across the first chunk boundary. *)
Example read_loop_frame_across_chunks :
  read_loop 4 true
    (FileInputSource_new (replicate 1020 0 ++ wire_frame OUTBOUND 101 [0; 0; 0; 0; 0; 0; 1]
                          ++ replicate 1017 0))
    MspMessageParser_new ([] : Recorder)
  = Exited reset [decoded OUTBOUND 101 [0; 0; 0; 0; 0; 0; 1]].
Proof. vm_compute. reflexivity. Qed.

(** ** One frame through [main] *)

(** A run of [main] on one well-formed frame: the handler prints its
    receipt and the decoded message is dispatched on the model of [main]. *)
Lemma main_run_one_frame (outPort now : Z) (d : Direction) (c : Z) (pl : list Z) :
  is_byte c -> Forall is_byte pl -> (length pl <= 255)%nat ->
  exists h,
    main_run outPort now (wire_frame d c pl)
    = Some (reset,
            (h, dispatchMessage (m_dispatcher (fst (main_wiring outPort now)))
                  (decoded d c pl)
                  (mkEnv (set_verbose true FlightDataModel_new)
                     [ReceivedMspMsg (MspCommand_value (toMspCommand c))
                        (Z.of_nat (length pl))]
                     [] now))).
Proof.
  intros Hc Hpl Hlen. unfold main_run, MspMessageParser_new.
  rewrite feed_wire_frame by assumption.
  destruct (main_wiring outPort now) as [h0 e0] eqn:Hw.
  assert (Hh0 : m_dataModel h0 = set_verbose true FlightDataModel_new
                /\ e0 = mkEnv (set_verbose true FlightDataModel_new) [] [] now).
  { unfold main_wiring in Hw. cbv zeta in Hw.
    destruct (outPort >? 0); injection Hw as <- <-; split; reflexivity. }
  destruct Hh0 as (Hcopy & ->).
  unfold onMspMessage, MspMessageHandler_handler, MspMessageHandler_onMspMessage.
  rewrite Hcopy.
  cbn [verbose set_verbose FlightDataModel_new].
  match goal with
  | |- context [copyToFrameBuffer ?a ?b ?c] =>
      destruct (copyToFrameBuffer a b c) as [copy o] eqn:Hcp
  end.
  assert (Hsz : length (MspMessage_bytes (decoded d c pl)) = 260%nat).
  { unfold MspMessage_bytes, decoded. cbn [payload zero_msg direction cmd size checksum].
    rewrite !length_app, length_drop, length_replicate.
    unfold MSP_MAX_PAYLOAD_SIZE. cbn [length]. lia. }
  assert (Ho : o = [ReceivedMspMsg (MspCommand_value (toMspCommand c))
                      (Z.of_nat (length pl))]).
  { unfold copyToFrameBuffer, flushFrameBuffer in Hcp. rewrite Hsz in Hcp.
    cbn [fbCursor set_verbose FlightDataModel_new verbose] in Hcp.
    change (0 + Z.of_nat 260 >? FRAME_BUFFER_SIZE) with false in Hcp.
    injection Hcp as _ <-. reflexivity. }
  subst o. eexists. reflexivity.
Qed.

(** X16: a frame whose command byte is none of 101, 102, 105, 108, read
    by the program as wired in [main], changes nothing in the model and
    sends nothing; the console shows the receipt and the unhandled
    command, both with 255 in the place of the byte received. *)
Theorem unknown_frame_only_logged
    (outPort now : Z) (d : Direction) (c : Z) (pl : list Z) :
  is_byte c -> c <> 101 -> c <> 102 -> c <> 105 -> c <> 108 ->
  Forall is_byte pl -> (length pl <= 255)%nat ->
  exists h,
    main_run outPort now (wire_frame d c pl)
    = Some (reset,
            (h, mkEnv (set_verbose true FlightDataModel_new)
                  [ReceivedMspMsg 255 (Z.of_nat (length pl)); UnhandledCommand 255]
                  [] now)).
Proof.
  intros Hc H101 H102 H105 H108 Hpl Hlen.
  assert (Hcmd : toMspCommand c = UNKNOWN).
  { unfold toMspCommand.
    destruct (Z.eqb_spec c 101); [contradiction |].
    destruct (Z.eqb_spec c 108); [contradiction |].
    destruct (Z.eqb_spec c 105); [contradiction |].
    destruct (Z.eqb_spec c 102); [contradiction | reflexivity]. }
  destruct (main_run_one_frame outPort now d c pl Hc Hpl Hlen) as [h Hrun].
  exists h. rewrite Hrun. f_equal. f_equal. f_equal.
  unfold dispatchMessage.
  replace (cmd (decoded d c pl)) with UNKNOWN by (symmetry; exact Hcmd).
  rewrite main_wiring_executors, Hcmd. reflexivity.
Qed.

Lemma unknown_frame_only_logged_witness :
  exists h,
    main_run 9999 3 (wire_frame INBOUND 200 [1; 2; 3])
    = Some (reset,
            (h, mkEnv (set_verbose true FlightDataModel_new)
                  [ReceivedMspMsg 255 (Z.of_nat (length [1; 2; 3])); UnhandledCommand 255]
                  [] 3)).
Proof.
  apply (unknown_frame_only_logged 9999 3 INBOUND 200 [1; 2; 3]);
    try lia; try (unfold is_byte; lia).
  - list_of_bytes.
  - simpl. lia.
Defined.
